(** * APIAgent: a shallow embedding of the air-quality pipeline

    The development follows [src/apia_agent.py] and [src/tools.py]:
    Python values and dictionaries, the exceptions the code can meet, the
    two tools, the snippet parser and the four agents, then the properties
    of each operation.

    Conventions of the embedding.
    - A Python [dict] with string keys is a [gmap string pyval]; the
      program never iterates over a dictionary, so insertion order is not
      observable.
    - A Python [float] is an IEEE-754 binary64 number, i.e. a primitive
      [float]; [*], [/], [<] are the primitive operations.
    - A Python [str] is the [string] of the bytes of its UTF-8 encoding;
      [chars] gives its characters. White space is the one of Unicode.
      [str.lower] needs the case tables of Unicode and is an operation of
      the runtime, see [PyBuiltins].
    - A call that may raise returns a [result]; [try ... except Exception]
      is a match on it.
    - The clock read by [datetime.utcnow().isoformat()] is an argument.
    - The logger ([utils.simple_logger], a print) takes part in no
      result and is left out. *)

From Stdlib Require Import ZArith Ascii String List Floats Lia Bool.
From stdpp Require Import gmap strings pretty.

Local Open Scope string_scope.
Local Open Scope Z_scope.

(* Decimal literals such as 0.8 denote the nearest binary64 value, as in
   Python. *)
Set Warnings "-inexact-float".

(* ===================================================================== *)
(** ** Python values, exceptions, results                                 *)
(* ===================================================================== *)

Inductive pyval : Type :=
  | PNone
  | PBool (b : bool)
  | PInt (z : Z)
  | PFloat (f : float)
  | PStr (s : string).

Abbreviation pydict := (gmap string pyval).

Inductive exn : Type :=
  | TypeError | ValueError | KeyError | IndexError
  | AttributeError | RuntimeError | OverflowError
  | OSError | UnicodeDecodeError | CsvError.

Inductive result (A : Type) : Type :=
  | Ok (a : A)
  | Raise (e : exn).
Arguments Ok {A} a.
Arguments Raise {A} e.

#[export] Instance result_ret : MRet result := fun A a => Ok a.

#[export] Instance result_bind : MBind result := fun A B k r =>
  match r with
  | Ok a => k a
  | Raise e => Raise e
  end.

(** [try: body except Exception: handler] *)
Definition try_except {A} (body : result A) (handler : exn -> result A) : result A :=
  match body with
  | Ok a => Ok a
  | Raise e => handler e
  end.

(* ===================================================================== *)
(** ** Strings                                                            *)
(* ===================================================================== *)

Definition is_upper (c : ascii) : bool :=
  (65 <=? Z.of_nat (nat_of_ascii c)) && (Z.of_nat (nat_of_ascii c) <=? 90).

Definition lower_ascii (c : ascii) : ascii :=
  if is_upper c then ascii_of_nat (nat_of_ascii c + 32) else c.

(** [s.lower()] as far as ASCII goes: A..Z become a..z and every other
    byte is kept. *)
Fixpoint ascii_lower (s : string) : string :=
  match s with
  | EmptyString => EmptyString
  | String c s' => String (lower_ascii c) (ascii_lower s')
  end.

(** [s.isascii()] *)
Fixpoint is_ascii (s : string) : bool :=
  match s with
  | EmptyString => true
  | String c s' => (Z.of_nat (nat_of_ascii c) <? 128) && is_ascii s'
  end.

(** [sub in s] for strings: [sub] starts at some position of [s]. *)
Fixpoint str_in (sub s : string) : bool :=
  String.prefix sub s ||
  match s with
  | EmptyString => false
  | String _ s' => str_in sub s'
  end.

(** White space among the ASCII characters: tab, line feed, vertical tab,
    form feed, carriage return, the separators 28..31, and space. *)
Definition ascii_space (c : ascii) : bool :=
  let n := Z.of_nat (nat_of_ascii c) in
  ((9 <=? n) && (n <=? 13)) || ((28 <=? n) && (n <=? 32)).

(** *** Characters

    In UTF-8 a character is one byte that is not a continuation byte
    (10xxxxxx), followed by up to three continuation bytes. *)
Definition is_cont (c : ascii) : bool :=
  let n := Z.of_nat (nat_of_ascii c) in (128 <=? n) && (n <? 192).

(** The characters of [s] after the one being read, [cur]. *)
Fixpoint chars_from (cur : string) (s : string) : list string :=
  match s with
  | EmptyString => [cur]
  | String c s' =>
      if is_cont c then chars_from (cur +:+ String c EmptyString) s'
      else cur :: chars_from (String c EmptyString) s'
  end.

(** The characters of a string, each as the string of its bytes. *)
Definition chars (s : string) : list string :=
  match s with
  | EmptyString => []
  | String c s' => chars_from (String c EmptyString) s'
  end.

(** The payload of the first byte of a character, the number of bytes of
    the character and the least code point written with that many; a byte
    that cannot start a character has no payload. *)
Definition lead (c : ascii) : option (Z * nat * Z) :=
  let n := Z.of_nat (nat_of_ascii c) in
  if n <? 128 then Some (n, 1%nat, 0)
  else if n <? 192 then None
  else if n <? 224 then Some (Z.land n 31, 2%nat, 128)
  else if n <? 240 then Some (Z.land n 15, 3%nat, 2048)
  else if n <? 248 then Some (Z.land n 7, 4%nat, 65536)
  else None.

Fixpoint payload (acc : Z) (s : string) : Z :=
  match s with
  | EmptyString => acc
  | String c s' => payload (acc * 64 + Z.land (Z.of_nat (nat_of_ascii c)) 63) s'
  end.

(** [ord(ch)] for a character; [-1] for bytes that encode none. *)
Definition code_point (ch : string) : Z :=
  match ch with
  | EmptyString => -1
  | String c rest =>
      match lead c with
      | Some (bits, len, least) =>
          let n := payload bits rest in
          if Nat.eqb (String.length ch) len && (least <=? n) then n else -1
      | None => -1
      end
  end.

(** [ch.isspace()] for a character, which is the white space of
    [str.split]: the ASCII one, U+0085, U+00A0, U+1680, U+2000..U+200A,
    U+2028, U+2029, U+202F, U+205F and U+3000. *)
Definition is_space (ch : string) : bool :=
  let n := code_point ch in
  ((9 <=? n) && (n <=? 13)) || ((28 <=? n) && (n <=? 32))
  || (n =? 133) || (n =? 160) || (n =? 5760)
  || ((8192 <=? n) && (n <=? 8202))
  || (n =? 8232) || (n =? 8233) || (n =? 8239) || (n =? 8287)
  || (n =? 12288).

(** [s.split()]: the maximal runs of characters that are not white space.
    [cur] is the run being read, if any. *)
Fixpoint split_ws (cur : option string) (cs : list string) : list string :=
  match cs with
  | [] =>
      match cur with
      | None => []
      | Some w => [w]
      end
  | ch :: cs' =>
      if is_space ch then
        match cur with
        | None => split_ws None cs'
        | Some w => w :: split_ws None cs'
        end
      else
        match cur with
        | None => split_ws (Some ch) cs'
        | Some w => split_ws (Some (w +:+ ch)) cs'
        end
  end.

Definition split (s : string) : list string := split_ws None (chars s).

(** A string that consists only of white space (the empty string too). *)
Definition all_space (s : string) : bool := forallb is_space (chars s).

(* ===================================================================== *)
(** ** Built-in operations on values                                      *)
(* ===================================================================== *)

(** The parts of the Python runtime the program calls but does not define:
    parsing a string as a float or an integer, printing a float, [sum]
    over floats (left-to-right up to Python 3.11, compensated from 3.12
    on) and [str.lower]. The program is embedded over any such runtime;
    [cpython] below is one to compute with. *)
Class PyBuiltins : Type := {
  str_to_float : string -> option float;
  str_to_int : string -> option Z;
  float_repr : float -> string;
  float_sum : list float -> float;
  (** [s.lower()], by the case tables of Unicode. *)
  lower : string -> string;
  (** [float('')] raises [ValueError]. *)
  str_to_float_empty : str_to_float "" = None;
  (** Lower-casing goes character by character, and an ASCII character
      becomes its ASCII lower case whatever is around it: a part of [s]
      written in ASCII is found lower-cased in [s.lower()]. *)
  lower_ascii_part (sub s : string) :
    is_ascii sub = true -> str_in sub s = true ->
    str_in (ascii_lower sub) (lower s) = true
}.

Local Open Scope float_scope.

(** [float(z)] for an integer: round to nearest even; too large raises. *)
Definition int_to_float (z : Z) : result float :=
  let f := SF2Prim (binary_normalize prec emax z 0 false) in
  if is_infinity f then Raise OverflowError else Ok f.

(** [int(f)] for a float: truncation towards zero. *)
Definition float_to_int (f : float) : result Z :=
  match Prim2SF f with
  | S754_zero _ => Ok 0%Z
  | S754_infinity _ => Raise OverflowError
  | S754_nan => Raise ValueError
  | S754_finite sg m e =>
      let a := match e with
               | Zneg k => Z.shiftr (Zpos m) (Zpos k)
               | _ => Z.shiftl (Zpos m) e
               end in
      Ok (if sg then (- a)%Z else a)
  end.

(** [len(l)] as a float operand, as in [total / len(l)]. *)
Definition len_float {A} (l : list A) : float :=
  SF2Prim (binary_normalize prec emax (Z.of_nat (length l)) 0 false).

Section Builtins.
Context `{PyBuiltins}.

(** [float(v)] *)
Definition py_float (v : pyval) : result float :=
  match v with
  | PNone => Raise TypeError
  | PBool b => Ok (if b then 1.0 else 0.0)
  | PInt z => int_to_float z
  | PFloat f => Ok f
  | PStr s =>
      match str_to_float s with
      | Some f => Ok f
      | None => Raise ValueError
      end
  end.

(** [int(v)] *)
Definition py_int (v : pyval) : result Z :=
  match v with
  | PNone => Raise TypeError
  | PBool b => Ok (if b then 1 else 0)%Z
  | PInt z => Ok z
  | PFloat f => float_to_int f
  | PStr s =>
      match str_to_int s with
      | Some z => Ok z
      | None => Raise ValueError
      end
  end.

(** [str(v)], which is what an f-string field [{v}] prints. *)
Definition py_str (v : pyval) : string :=
  match v with
  | PNone => "None"
  | PBool true => "True"
  | PBool false => "False"
  | PInt z => pretty z
  | PFloat f => float_repr f
  | PStr s => s
  end.

(** [v.lower()]: only strings have the method. *)
Definition py_lower (v : pyval) : result string :=
  match v with
  | PStr s => Ok (lower s)
  | _ => Raise AttributeError
  end.
End Builtins.

(** [bool(v)] *)
Definition truthy (v : pyval) : bool :=
  match v with
  | PNone => false
  | PBool b => b
  | PInt z => negb (z =? 0)%Z
  | PFloat f => negb (f =? 0.0)
  | PStr s => negb (String.eqb s "")
  end.

(** [v != ''] *)
Definition ne_empty_str (v : pyval) : bool :=
  match v with
  | PStr s => negb (String.eqb s "")
  | _ => true
  end.

(** [d.get(k)], [d.get(k, dflt)], [d[k]] and [bool(d)]. *)
Definition dict_get (d : pydict) (k : string) : pyval :=
  default PNone (d !! k).

Definition dict_get_or (d : pydict) (k : string) (dflt : pyval) : pyval :=
  default dflt (d !! k).

Definition dict_item (d : pydict) (k : string) : result pyval :=
  match d !! k with
  | Some v => Ok v
  | None => Raise KeyError
  end.

Definition dict_truthy {V} (d : gmap string V) : bool :=
  negb (Nat.eqb (size d) 0).

(** *** A runtime to compute with

    [float(s)] and [int(s)] read the decimal notation of Python (white
    space around, a sign, ASCII digits with single underscores between them, a
    fraction, an exponent, [inf], [infinity] and [nan] in any case) and round
    to the nearest binary64 value, ties to even. [repr] of a float prints
    the shortest digits that read back as the same value. [sum] adds from
    left to right, starting from the integer 0. [lower] is the one of
    ASCII, which is [str.lower] on a string whose other characters have no
    lower case of their own. *)
Module CPython.
Definition digit_val (c : ascii) : option Z :=
  let n := Z.of_nat (nat_of_ascii c) in
  if (48 <=? n)%Z && (n <=? 57)%Z then Some (n - 48)%Z else None.

(** After a first digit: more digits, each possibly after one "_".
    Returns the value, the number of digits read and the rest. *)
Fixpoint more_digits (acc cnt : Z) (s : string) : Z * Z * string :=
  match s with
  | EmptyString => (acc, cnt, s)
  | String c s' =>
      match digit_val c with
      | Some d => more_digits (10 * acc + d)%Z (cnt + 1)%Z s'
      | None =>
          if Ascii.eqb c "_" then
            match s' with
            | String c' s'' =>
                match digit_val c' with
                | Some d => more_digits (10 * acc + d)%Z (cnt + 1)%Z s''
                | None => (acc, cnt, s)
                end
            | EmptyString => (acc, cnt, s)
            end
          else (acc, cnt, s)
      end
  end.

Definition digitpart (acc : Z) (s : string) : option (Z * Z * string) :=
  match s with
  | String c s' =>
      match digit_val c with
      | Some d => Some (more_digits (10 * acc + d)%Z 1%Z s')
      | None => None
      end
  | EmptyString => None
  end.

Fixpoint lstrip (s : string) : string :=
  match s with
  | String c s' => if ascii_space c then lstrip s' else s
  | EmptyString => s
  end.

Fixpoint rstrip (s : string) : string :=
  match s with
  | String c s' =>
      match rstrip s' with
      | EmptyString => if ascii_space c then EmptyString else String c EmptyString
      | t => String c t
      end
  | EmptyString => s
  end.

Definition strip (s : string) : string := rstrip (lstrip s).

(** An optional sign: [true] for "-". *)
Definition sign (s : string) : bool * string :=
  match s with
  | String "-" s' => (true, s')
  | String "+" s' => (false, s')
  | _ => (false, s)
  end.

(** The nearest binary64 value to [(-1)^neg * m * 10^e], for [0 <= m]. *)
Definition round_decimal (neg : bool) (m e : Z) : float :=
  match m with
  | Zpos _ =>
      match e with
      | Zneg k =>
          let '(q, e', l) :=
            SFdiv_core_binary prec emax m 0 (Z.pow 10 (Zpos k)) 0 in
          SF2Prim (binary_round_aux prec emax neg q e' l)
      | _ =>
          SF2Prim (binary_normalize prec emax
                     (if neg then - (m * Z.pow 10 e) else m * Z.pow 10 e)%Z
                     0 false)
      end
  | _ => if neg then (-0.0)%float else 0.0%float
  end.

(** The exponent part, if any; nothing may follow it. *)
Definition exponent (s : string) : option Z :=
  match s with
  | EmptyString => Some 0%Z
  | String c s' =>
      if Ascii.eqb c "e" || Ascii.eqb c "E" then
        let '(neg, s'') := sign s' in
        match digitpart 0 s'' with
        | Some (x, _, EmptyString) => Some (if neg then - x else x)%Z
        | _ => None
        end
      else None
  end.

(** Digits, a fraction and an exponent: the integer [m] and the power
    of ten [e] with value [m * 10^e]. *)
Definition number (s : string) : option (Z * Z) :=
  let '(m, had_int, s1) :=
    match digitpart 0 s with
    | Some (m, _, s1) => (m, true, s1)
    | None => (0%Z, false, s)
    end in
  let after_point :=
    match s1 with
    | String "." s2 =>
        match digitpart m s2 with
        | Some (m', cnt, s3) => Some (m', cnt, s3)
        | None => if had_int then Some (m, 0%Z, s2) else None
        end
    | _ => if had_int then Some (m, 0%Z, s1) else None
    end in
  match after_point with
  | Some (m', cnt, s3) =>
      match exponent s3 with
      | Some x => Some (m', (x - cnt)%Z)
      | None => None
      end
  | None => None
  end.

Definition parse_float (s : string) : option float :=
  let '(neg, t) := sign (strip s) in
  let w := ascii_lower t in
  if String.eqb w "inf" || String.eqb w "infinity"
  then Some (if neg then neg_infinity else infinity)
  else if String.eqb w "nan" then Some nan
  else
    match number t with
    | Some (m, e) => Some (round_decimal neg m e)
    | None => None
    end.

Definition parse_int (s : string) : option Z :=
  let '(neg, t) := sign (strip s) in
  match digitpart 0 t with
  | Some (x, _, EmptyString) => Some (if neg then - x else x)%Z
  | _ => None
  end.

(** [x] as a fraction [(a, b)] of positive integers, for a finite [x]. *)
Definition fraction (m : positive) (e : Z) : Z * Z :=
  match e with
  | Zneg k => (Zpos m, Z.pow 2 (Zpos k))
  | _ => (Zpos m * Z.pow 2 e, 1)%Z
  end.

(** The [k] with [10^(k-1) <= a/b < 10^k], searched upwards from [k]. *)
Fixpoint decpt_from (fuel : nat) (a b k : Z) : Z :=
  match fuel with
  | O => k
  | S fuel' =>
      let below := match k with
                   | Zneg j => (a * Z.pow 10 (Zpos j) <? b)%Z
                   | _ => (a <? b * Z.pow 10 k)%Z
                   end in
      if below then k else decpt_from fuel' a b (k + 1)%Z
  end.

(** The digits [d] and the exponent [x] of the decimal [d * 10^x] with
    [n] digits that is nearest to [a/b] among those that read back as
    [f]; [k] is the position of the decimal point of [a/b]. *)
Definition candidate (f : float) (a b k n : Z) : option (Z * Z) :=
  let x := (k - n)%Z in
  let '(lo, r) :=
    match x with
    | Zpos j => Z.div_eucl a (b * Z.pow 10 (Zpos j))
    | _ => Z.div_eucl (a * Z.pow 10 (- x)) b
    end in
  let den := match x with
             | Zpos j => (b * Z.pow 10 (Zpos j))%Z
             | _ => b
             end in
  let ok d := (round_decimal false d x =? f)%float in
  let lo_first := match (2 * r ?= den)%Z with
                  | Lt => true
                  | Eq => Z.even lo
                  | Gt => false
                  end in
  let d1 := if lo_first then lo else (lo + 1)%Z in
  let d2 := if lo_first then (lo + 1)%Z else lo in
  if ok d1 then Some (d1, x)
  else if ok d2 then Some (d2, x)
  else None.

Fixpoint shortest (fuel : nat) (f : float) (a b k n : Z) : Z * Z :=
  match fuel with
  | O => (0, 0)%Z
  | S fuel' =>
      match candidate f a b k n with
      | Some dx => dx
      | None => shortest fuel' f a b k (n + 1)%Z
      end
  end.

(** Trailing zeros of [d] go to the exponent. *)
Fixpoint strip_zeros (fuel : nat) (d x : Z) : Z * Z :=
  match fuel with
  | O => (d, x)
  | S fuel' =>
      if (0 <? d)%Z && (d mod 10 =? 0)%Z
      then strip_zeros fuel' (d / 10)%Z (x + 1)%Z
      else (d, x)
  end.

Fixpoint zeros (n : nat) : string :=
  match n with
  | O => EmptyString
  | S n' => String "0" (zeros n')
  end.

(** The layout of [repr]: plain notation while the decimal point is
    within [-4 < decpt <= 16], exponent notation outside. *)
Definition layout (digits : string) (decpt : Z) : string :=
  let n := Z.of_nat (String.length digits) in
  if (decpt <=? -4)%Z || (16 <? decpt)%Z then
    let x := (decpt - 1)%Z in
    let mant :=
      match digits with
      | String c EmptyString => String c EmptyString
      | String c rest => String c ("." +:+ rest)
      | EmptyString => EmptyString
      end in
    let xs := pretty (Z.abs x) in
    mant +:+ "e" +:+ (if (x <? 0)%Z then "-" else "+")
         +:+ (if (Z.abs x <? 10)%Z then "0" else "") +:+ xs
  else if (decpt <=? 0)%Z then
    "0." +:+ zeros (Z.to_nat (- decpt)) +:+ digits
  else if (n <=? decpt)%Z then
    digits +:+ zeros (Z.to_nat (decpt - n)) +:+ ".0"
  else
    String.substring 0 (Z.to_nat decpt) digits +:+ "."
      +:+ String.substring (Z.to_nat decpt) (Z.to_nat (n - decpt)) digits.

Definition repr_float (f : float) : string :=
  match Prim2SF f with
  | S754_nan => "nan"
  | S754_infinity sg => if sg then "-inf" else "inf"
  | S754_zero sg => if sg then "-0.0" else "0.0"
  | S754_finite sg m e =>
      let '(a, b) := fraction m e in
      let k := decpt_from 700 a b (-330) in
      let '(d, x) := shortest 17 (abs f) a b k 1 in
      let '(d, x) := strip_zeros 17 d x in
      let digits := pretty d in
      let decpt := (Z.of_nat (String.length digits) + x)%Z in
      (if sg then "-" else "") +:+ layout digits decpt
  end.

Definition sum (vals : list float) : float :=
  fold_left PrimFloat.add vals 0.0%float.

#[program] Definition cpython : PyBuiltins := {|
  str_to_float := parse_float;
  str_to_int := parse_int;
  float_repr := repr_float;
  float_sum := sum;
  lower := ascii_lower;
  str_to_float_empty := eq_refl
|}.
Next Obligation.
  intros sub s _.
  assert (forall p t, String.prefix p t = true ->
            String.prefix (ascii_lower p) (ascii_lower t) = true) as Hpre.
  { induction p as [|c p IH]; intros [|d t]; simpl; try done.
    destruct (ascii_dec c d) as [->|Hne]; [|done].
    intros Hp. destruct (ascii_dec (lower_ascii d) (lower_ascii d)); [|done].
    by apply IH. }
  induction s as [|d s IH]; simpl; intros Hin.
  - rewrite orb_false_r in Hin.
    apply (Hpre sub "") in Hin. simpl in Hin. by rewrite Hin.
  - apply orb_true_iff in Hin as [Hp|Hs].
    + apply (Hpre sub (String d s)) in Hp. simpl in Hp. by rewrite Hp.
    + rewrite (IH Hs). apply orb_true_r.
Qed.
End CPython.

(** Closed examples run on this runtime; the definitions and theorems
    below are stated for any runtime. *)
#[global] Existing Instance CPython.cpython.

(* ===================================================================== *)
(** ** The snippet parser                                                 *)
(* ===================================================================== *)

Section Parser.
Context `{PyBuiltins}.

(** [parse_search_snippet]: the body runs under [try]; on a value that is
    not a string [snippet.lower()] raises [AttributeError] and the handler
    returns the empty dictionary. *)
Definition parse_search_snippet_body (snippet : pyval) : result pydict :=
  let out : pydict := ∅ in
  match snippet with
  | PStr snippet =>
      let lowered := lower snippet in
      if str_in "pm2.5" lowered || str_in "pm2.5" snippet
         || str_in "pm2.5" (lower snippet) || str_in "pm2.5" snippet
      then
        if str_in "86" snippet then
          let out := <["pm25" := PFloat 86.0]> out in
          let out := <["pm10" := PFloat 150.0]> out in
          let out := <["aqi" := PInt 128]> out in
          Ok out
        else
          let out := <["pm25" := PFloat 55.0]> out in
          let out := <["pm10" := PFloat 90.0]> out in
          let out := <["aqi" := PInt 80]> out in
          Ok out
      else Ok out
  | _ => Raise AttributeError
  end.

Definition parse_search_snippet (snippet : pyval) : pydict :=
  match parse_search_snippet_body snippet with
  | Ok out => out
  | Raise _ => ∅
  end.
End Parser.

(* ===================================================================== *)
(** ** Tools ([src/tools.py])                                             *)
(* ===================================================================== *)

(** A tool is called with one string and returns a dictionary or raises. *)
Definition tool : Type := string -> result pydict.

Module GoogleSearchTool.
Definition snippet_tail : string :=
  ": 128 (Unhealthy for sensitive groups). PM2.5: 86 µg/m3. Source: example.com".

(** [run]; [now] is what [datetime.utcnow().isoformat()] returns. *)
Definition run (now : string) (query : string) : result pydict :=
  match split query with
  | [] => Raise IndexError
  | tok :: _ =>
      let snippet := "AQI " +:+ tok +:+ snippet_tail in
      Ok ({[ "query" := PStr query;
             "timestamp" := PStr now;
             "result_snippet" := PStr snippet;
             "raw_html" := PStr "<html>...</html>" ]} : pydict)
  end.
End GoogleSearchTool.

(** What [CSVLoaderTool.run] and [main] find at the path of the data
    file: nothing, a file that [open] or [csv.DictReader] raises on (a
    directory, a file that may not be read or is not text in the expected
    encoding, a field that is too long), or the rows of the file as
    [csv.DictReader] yields them. *)
Inductive csv_file : Type :=
  | Missing
  | Unreadable (e : exn)
  | Rows (reader : list pydict).

Module CSVLoaderTool.
Section Defs.
Context `{PyBuiltins}.

(** The loop of [run] over the rows read by [csv.DictReader]; [latest]
    is the loop's variable. *)
Fixpoint scan (location : string) (reader : list pydict)
    (latest : option pydict) : result (option pydict) :=
  match reader with
  | [] => Ok latest
  | row :: rest =>
      l ← py_lower (dict_get_or row "location" (PStr ""));
      if String.eqb l (lower location)
      then scan location rest (Some row)
      else scan location rest latest
  end.

(** [run]; [csv_path] is [str(self.csv_path)] and [file] is what is found
    there. Nothing in [run] catches what [open] or the reader raises. *)
Definition run (csv_path : string) (file : csv_file)
    (location : string) : result pydict :=
  match file with
  | Missing =>
      Ok ({[ "error" := PStr "sample data missing";
             "path" := PStr csv_path ]} : pydict)
  | Unreadable e => Raise e
  | Rows reader =>
      latest ← scan location reader None;
      match latest with
      | Some row =>
          if dict_truthy row then Ok row
          else Ok ({[ "error" := PStr "no data for location" ]} : pydict)
      | None => Ok ({[ "error" := PStr "no data for location" ]} : pydict)
      end
  end.
End Defs.
End CSVLoaderTool.

(* ===================================================================== *)
(** ** Agents ([src/apia_agent.py])                                       *)
(* ===================================================================== *)

Record Agent : Type := {
  name : string;
  tools : gmap string tool
}.

Definition call_tool (self : Agent) (tool_name : string) (arg : string)
    : result pydict :=
  match tools self !! tool_name with
  | None => Raise RuntimeError
  | Some t => t arg
  end.

Definition poor_text : string :=
  "Air quality is poor — avoid strenuous outdoor activity. If you have respiratory issues, use a mask.".
Definition moderate_text : string :=
  "Air quality is moderate; normal activities are OK.".
Definition unable_text : string :=
  "Unable to fully assess air quality.".

Module PlannerAgent.
End PlannerAgent.

Module DataAgent.
Section Defs.
Context `{PyBuiltins}.

(** The [try] block of [fetch]. *)
Definition fetch_search (self : Agent) (now : string) (location : string)
    : result pydict :=
  res ← call_tool self "google_search" (location +:+ " AQI today");
  let parsed := parse_search_snippet (dict_get_or res "result_snippet" (PStr "")) in
  if dict_truthy parsed then
    let parsed := <["source" := PStr "google_search"]> parsed in
    let ts := dict_get res "timestamp" in
    let parsed := <["timestamp" := if truthy ts then ts else PStr now]> parsed in
    Ok parsed
  else Raise ValueError.

(** The [except] block of [fetch]; what it raises is not caught. *)
Definition fetch_csv (self : Agent) (location : string) : result pydict :=
  csv_res ← call_tool self "csv_loader" location;
  if truthy (dict_get csv_res "error") then
    Ok ({[ "error" := PStr "no data available" ]} : pydict)
  else
    pm25 ← dict_item csv_res "pm25" ≫= py_float;
    pm10 ← dict_item csv_res "pm10" ≫= py_float;
    aqi ← py_int (dict_get_or csv_res "aqi" (PInt (-1)));
    Ok ({[ "pm25" := PFloat pm25;
           "pm10" := PFloat pm10;
           "aqi" := PInt aqi;
           "timestamp" := dict_get csv_res "date";
           "source" := PStr "sample_csv" ]} : pydict).

(** [fetch]; [now] is the clock read by [datetime.utcnow().isoformat()]. *)
Definition fetch (self : Agent) (now : string) (location : string)
    : result pydict :=
  try_except (fetch_search self now location)
             (fun _ => fetch_csv self location).
End Defs.
End DataAgent.

Module AnalysisAgent.
Section Defs.
Context `{PyBuiltins}.

(** [[float(x.get("pm25", 0)) for x in recent_series if x.get("pm25") != '']] *)
Fixpoint past_vals (recent_series : list pydict) : result (list float) :=
  match recent_series with
  | [] => Ok []
  | x :: rest =>
      if ne_empty_str (dict_get x "pm25") then
        v ← py_float (dict_get_or x "pm25" (PInt 0));
        vs ← past_vals rest;
        Ok (v :: vs)
      else past_vals rest
  end.

Definition default_result : pydict :=
  {[ "trend" := PStr "stable"; "anomaly" := PBool false;
     "confidence" := PFloat 0.8 ]}.

(** [sum(past_vals)/len(past_vals)] *)
Definition mean (vals : list float) : float :=
  float_sum vals / len_float vals.

(** The [if past_avg>0] block: the three-way update of [result], then
    the confidence. *)
Definition classify (result : pydict) (today_pm past_avg : float) : pydict :=
  let result :=
    if past_avg * 1.3 <? today_pm then
      <["anomaly" := PBool true]> (<["trend" := PStr "rising"]> result)
    else if today_pm <? past_avg * 0.8 then
      <["trend" := PStr "falling"]> result
    else
      <["trend" := PStr "stable"]> result in
  <["confidence" := PFloat 0.9]> result.

(** The [try] block of [analyze]. *)
Definition analyze_body (datapoint : pydict)
    (recent_series : option (list pydict)) : result pydict :=
  let result := default_result in
  today_pm ← py_float (dict_get_or datapoint "pm25" (PInt 0));
  match recent_series with
  | Some (x :: rest) =>
      vals ← past_vals (x :: rest);
      match vals with
      | _ :: _ =>
          let past_avg := mean vals in
          if 0.0 <? past_avg
          then Ok (classify result today_pm past_avg)
          else Ok result
      | [] => Ok result
      end
  | _ => Ok result
  end.

Definition analyze (datapoint : pydict)
    (recent_series : option (list pydict)) : result pydict :=
  try_except (analyze_body datapoint recent_series)
             (fun _ => Ok ({[ "error" := PStr "analysis_error" ]} : pydict)).
End Defs.
End AnalysisAgent.

Module ExplanationAgent.
Section Defs.
Context `{PyBuiltins}.

(** The f-string that opens the summary. *)
Definition template (pm25 trend : pyval) : string :=
  "Current PM2.5 is " +:+ py_str pm25 +:+ " µg/m3. Trend: "
    +:+ py_str trend +:+ ". ".

(** [pm25 and float(pm25) > 100], as the condition of the [if]. *)
Definition is_poor (pm25 : pyval) : result bool :=
  if truthy pm25 then
    f ← py_float pm25; Ok (100.0 <? f)
  else Ok false.

Definition explain (datapoint analysis : pydict) : pydict :=
  let pm25 := dict_get datapoint "pm25" in
  let trend := dict_get analysis "trend" in
  let text := template pm25 trend in
  let text :=
    match is_poor pm25 with
    | Ok true => text +:+ poor_text
    | Ok false => text +:+ moderate_text
    | Raise _ => text +:+ unable_text
    end in
  {[ "summary" := PStr text;
     "confidence" := dict_get_or analysis "confidence" (PFloat 0.7) ]}.
End Defs.
End ExplanationAgent.

Module AdvisoryAgent.
Section Defs.
Context `{PyBuiltins}.

(** [any(w in s.lower() for w in ["poor","avoid"])] *)
Definition mentions_poor (s : pyval) : result bool :=
  l ← py_lower s;
  if str_in "poor" l then Ok true
  else (l ← py_lower s; Ok (str_in "avoid" l)).

(** [advise]; the returned dictionary has the one key "advice". *)
Definition advise (explanation : pydict) (user_prefs : option pydict)
    : result (gmap string (list string)) :=
  let advice : list string := [] in
  let s := dict_get_or explanation "summary" (PStr "") in
  mentions_poor s ≫= fun bad : bool =>
  let advice :=
    if bad then
      ((advice ++ ["Avoid outdoor exercise today."])
         ++ ["Use N95 mask if you must go out."])%list
    else (advice ++ ["Good day for outdoor activities."])%list in
  let asthma :=
    match user_prefs with
    | Some prefs => dict_truthy prefs && truthy (dict_get prefs "asthma")
    | None => false
    end in
  let advice :=
    if asthma then (advice ++ ["Carry inhaler and avoid crowded roads."])%list
    else advice in
  Ok ({[ "advice" := advice ]} : gmap string (list string)).
End Defs.
End AdvisoryAgent.

(* ===================================================================== *)
(** ** The memory bank and the entry point ([src/apia_agent.py])          *)
(* ===================================================================== *)

Module MemoryBank.
Section Defs.
(** What [save_query] is given; the program saves dictionaries of its own
    making, see [Main.log_entry]. *)
Context {Q : Type}.

(** [self.storage = {"queries": [...], "preferences": {...}}] *)
Record t : Type := {
  queries : list Q;
  preferences : pydict
}.


(** [self.storage["queries"].append(q)] *)
Definition save_query (self : t) (q : Q) : t :=
  {| queries := (queries self ++ [q])%list; preferences := preferences self |}.

(** [self.storage["preferences"][k] = v] *)
Definition set_pref (self : t) (k : string) (v : pyval) : t :=
  {| queries := queries self; preferences := <[k := v]> (preferences self) |}.

(** [self.storage["preferences"].get(k, default)] *)
Definition get_pref (self : t) (k : string) (dflt : pyval) : pyval :=
  default dflt (preferences self !! k).

(** A call that changes the bank, and a sequence of such calls. *)
Inductive call : Type :=
  | SaveQuery (q : Q)
  | SetPref (k : string) (v : pyval).

Definition step (self : t) (c : call) : t :=
  match c with
  | SaveQuery q => save_query self q
  | SetPref k v => set_pref self k v
  end.

Definition run (self : t) (calls : list call) : t :=
  fold_left step calls self.
End Defs.
Arguments t Q : clear implicits.
End MemoryBank.

Module Main.






(** [recent[-7:]] *)
Definition last7 {A} (recent : list A) : list A :=
  drop (length recent - 7) recent.

Section Defs.
Context `{PyBuiltins}.

(** [[r for r in reader if r.get("location","").lower() == location.lower()]] *)
Fixpoint matching_rows (location : string) (reader : list pydict)
    : result (list pydict) :=
  match reader with
  | [] => Ok []
  | r :: rest =>
      l ← py_lower (dict_get_or r "location" (PStr ""));
      if String.eqb l (lower location)
      then (rs ← matching_rows location rest; Ok (r :: rs))
      else matching_rows location rest
  end.

(** The [try] block that sets [recent_series]: [None] when the file cannot
    be opened or read, or a row makes the comprehension raise. *)
Definition recent_rows (file : csv_file) (location : string)
    : option (list pydict) :=
  match file with
  | Missing | Unreadable _ => None
  | Rows reader =>
      match matching_rows location reader with
      | Ok recent => Some (last7 recent)
      | Raise _ => None
      end
  end.

End Defs.
End Main.

(* ===================================================================== *)
(** ** The vocabulary of the specification                                *)
(* ===================================================================== *)

(** An error record: a dictionary with a true "error" entry, which is
    what [DataAgent.fetch] and [main] test. *)
Definition is_error_record (d : pydict) : bool :=
  truthy (dict_get d "error").

(** The search path of [DataAgent.fetch] fails: the search adapter raises
    (or is not registered), or the parse of its snippet is empty. *)
Definition search_fails `{PyBuiltins} (self : Agent) (location : string)
    : Prop :=
  (exists e, call_tool self "google_search" (location +:+ " AQI today") = Raise e)
  \/ (exists res,
        call_tool self "google_search" (location +:+ " AQI today") = Ok res /\
        parse_search_snippet (dict_get_or res "result_snippet" (PStr "")) = ∅).

(** The coercions of a CSV row: pm25 and pm10 to float, aqi to int with
    -1 when the row has no aqi; the first one that fails raises. *)
Definition coercions `{PyBuiltins} (csv_res : pydict)
    : result (float * float * Z) :=
  pm25 ← dict_item csv_res "pm25" ≫= py_float;
  pm10 ← dict_item csv_res "pm10" ≫= py_float;
  aqi ← py_int (dict_get_or csv_res "aqi" (PInt (-1)));
  Ok (pm25, pm10, aqi).

Module TrendSpec.
Section Defs.
Context `{PyBuiltins}.

(** The pm25 field of a history row is the empty string; it is absent. *)
Definition pm25_empty (x : pydict) : bool :=
  match x !! "pm25" with
  | Some (PStr s) => String.eqb s ""
  | _ => false
  end.

Definition pm25_absent (x : pydict) : bool :=
  match x !! "pm25" with
  | None => true
  | Some _ => false
  end.

(** The pm25 value a row stands for: its field as a float, and 0.0 for a
    row without the field. *)
Definition pm25_value (x : pydict) : result float :=
  match x !! "pm25" with
  | Some v => py_float v
  | None => Ok 0.0
  end.

(** The pm25 values of the rows that [skip] does not leave out. *)
Definition values (skip : pydict -> bool) (rows : list pydict)
    : result (list float) :=
  mapM pm25_value (List.filter (fun x => negb (skip x)) rows).

(** The values the specification takes the mean of: rows with an empty or
    an absent pm25 are skipped. *)
Definition claimed_vals (rows : list pydict) : result (list float) :=
  values (fun x => pm25_empty x || pm25_absent x) rows.

(** The values with only the rows with an empty pm25 skipped. *)
Definition used_vals (rows : list pydict) : result (list float) :=
  values pm25_empty rows.

(** Sum over count. *)
Definition arithmetic_mean (vals : list float) : float :=
  float_sum vals / len_float vals.
End Defs.
End TrendSpec.

(** The "asthma" preference flag is set: there are preferences and their
    "asthma" entry is true. *)
Definition asthma_flag (user_prefs : option pydict) : bool :=
  match user_prefs with
  | Some prefs => truthy (dict_get prefs "asthma")
  | None => false
  end.

Module CsvSpec.
Section Defs.
Context `{PyBuiltins}.

(** The location field of [row] equals [location], case ignored. *)
Definition row_matches (location : string) (row : pydict) : bool :=
  match row !! "location" with
  | Some (PStr s) => String.eqb (lower s) (lower location)
  | _ => false
  end.

(** The last row of the file, in file order, that matches. *)
Definition last_match (location : string) (rows : list pydict)
    : option pydict :=
  last (List.filter (row_matches location) rows).

(** A file with a location column: every row has a string there. *)
Definition has_location (row : pydict) : Prop :=
  exists s, row !! "location" = Some (PStr s).
End Defs.
End CsvSpec.

(** The location field of a row can be lower-cased: it is a string, or
    it is absent and read as the empty string. *)
Definition location_ok (row : pydict) : bool :=
  match row !! "location" with
  | Some (PStr _) | None => true
  | Some _ => false
  end.

(** The summary of an explanation can be lower-cased: it is a string, or
    it is absent and read as the empty string. *)
Definition summary_ok (explanation : pydict) : bool :=
  match explanation !! "summary" with
  | Some (PStr _) | None => true
  | Some _ => false
  end.

Module MemorySpec.
Section Defs.
Context {Q : Type}.

(** The queries that a sequence of calls saves, in the order of the calls. *)
Fixpoint saved (calls : list (MemoryBank.call (Q := Q))) : list Q :=
  match calls with
  | [] => []
  | MemoryBank.SaveQuery q :: rest => q :: saved rest
  | MemoryBank.SetPref _ _ :: rest => saved rest
  end.

(** The value that the last [set_pref] of the key [k] in a sequence of
    calls gives it, if there is one. *)
Fixpoint last_set (k : string) (calls : list (MemoryBank.call (Q := Q)))
    : option pyval :=
  match calls with
  | [] => None
  | MemoryBank.SetPref k' v :: rest =>
      match last_set k rest with
      | Some w => Some w
      | None => if String.eqb k' k then Some v else None
      end
  | MemoryBank.SaveQuery _ :: rest => last_set k rest
  end.
End Defs.
End MemorySpec.

Module MainSpec.
(** The location a row is read with in [main]: its location field, or the
    empty string when the row has none. *)
Definition location_text (row : pydict) : string :=
  match row !! "location" with
  | Some (PStr s) => s
  | _ => ""
  end.

(** The row is one of [location], case ignored. *)
Definition reads_as `{PyBuiltins} (location : string) (row : pydict) : bool :=
  String.eqb (lower (location_text row)) (lower location).

End MainSpec.


(* ===================================================================== *)
(** ** Sample data                                                        *)
(* ===================================================================== *)

Module Sample.
(** A row as [csv.DictReader] yields it: every field is a string. *)
Definition row (location pm25 pm10 aqi date : string) : pydict :=
  {[ "location" := PStr location; "pm25" := PStr pm25;
     "pm10" := PStr pm10; "aqi" := PStr aqi; "date" := PStr date ]}.

Definition rows : list pydict :=
  [ row "Chennai" "60.0" "100.0" "95" "2025-11-01";
    row "Delhi" "180.5" "260.0" "310" "2025-11-01";
    row "chennai" "70.0" "110.0" "102" "2025-11-02" ].

(** A file whose only row has a pm25 field that is not a number. *)
Definition malformed_rows : list pydict :=
  [ row "Chennai" "n/a" "90.0" "80" "2025-11-03" ].

(** The rows of Chennai, oldest first. *)
Definition history : list pydict :=
  [ row "Chennai" "60.0" "100.0" "95" "2025-11-01";
    row "chennai" "70.0" "110.0" "102" "2025-11-02" ].

(** A history with a row that has no pm25 field. *)
Definition gap_history : list pydict :=
  [ {[ "location" := PStr "Chennai"; "pm25" := PStr "60.0" ]};
    {[ "location" := PStr "Chennai" ]} ].

Definition csv_path : string := "data/sample_data.csv".
Definition now : string := "2025-11-30T06:00:00".

(** A reading with the given pm25 field. *)
Definition reading (pm25 : pyval) : pydict :=
  {[ "pm25" := pm25; "pm10" := PFloat 150.0; "aqi" := PInt 128;
     "timestamp" := PStr now; "source" := PStr "google_search" ]}.

(** Two summaries, as [ExplanationAgent.explain] writes them. *)
Definition poor_summary : string :=
  "Current PM2.5 is 150.0 µg/m3. Trend: rising. Air quality is poor — avoid strenuous outdoor activity. If you have respiratory issues, use a mask.".
Definition moderate_summary : string :=
  "Current PM2.5 is 50.0 µg/m3. Trend: stable. Air quality is moderate; normal activities are OK.".

Definition poor_explanation : pydict :=
  {[ "summary" := PStr poor_summary; "confidence" := PFloat 0.9 ]}.
Definition moderate_explanation : pydict :=
  {[ "summary" := PStr moderate_summary; "confidence" := PFloat 0.7 ]}.

(** The preferences of a user, with the asthma flag [b]. *)
Definition preferences (b : bool) : pydict := {[ "asthma" := PBool b ]}.

(** A search adapter whose snippet has no "pm2.5" in it. *)
Definition no_result_search (query : string) : result pydict :=
  Ok ({[ "query" := PStr query;
         "result_snippet" := PStr "No results found." ]} : pydict).

(** An agent with the search tool [search] and the CSV loader on [file]. *)
Definition agent (search : tool) (file : csv_file) : Agent :=
  {| name := "data_agent";
     tools := {[ "google_search" := search;
                 "csv_loader" := CSVLoaderTool.run csv_path file ]} |}.
(** A history of zero readings, and a row with an empty pm25. *)
Definition zero_history : list pydict :=
  [ row "Chennai" "0.0" "0.0" "0" "2025-11-01";
    row "Chennai" "0" "0.0" "0" "2025-11-02" ].

Definition blank_row : pydict := row "Chennai" "" "" "" "2025-11-03".

(** An agent with no tool at all. *)
Definition bare_agent : Agent := {| name := "data_agent"; tools := ∅ |}.

(** A file with a short row: [csv.DictReader] fills the fields that are
    missing with [None]. *)
Definition short_rows : list pydict :=
  [ {[ "date" := PStr "2025-11-01"; "location" := PNone; "pm25" := PNone ]};
    {[ "date" := PStr "2025-11-02"; "location" := PStr "Chennai";
       "pm25" := PStr "70.0" ]} ].

(** A query of white space that is not ASCII: a no-break space, U+00A0,
    and an ideographic space, U+3000, in UTF-8. *)
Definition wide_blank : string :=
  string_of_list_ascii
    (List.map ascii_of_nat [194; 160; 227; 128; 128]%nat).

End Sample.

(* ===================================================================== *)
(** ** Properties of the string operations                                *)
(* ===================================================================== *)

Lemma prefix_app (p s t : string) :
  String.prefix p s = true -> String.prefix p (s +:+ t) = true.
Proof.
  revert s. induction p as [|c p IH]; intros [|d s]; simpl; try done.
  - by destruct t.
  - destruct (ascii_dec c d); [|done]. apply IH.
Qed.

Lemma prefix_refl (s : string) : String.prefix s s = true.
Proof.
  induction s as [|c s IH]; simpl; [done|].
  by destruct (ascii_dec c c).
Qed.

Lemma str_in_prefix (p s : string) :
  String.prefix p s = true -> str_in p s = true.
Proof.
  intros Hp. destruct s; cbn [str_in]; by rewrite Hp.
Qed.

Lemma str_in_refl (s : string) : str_in s s = true.
Proof. apply str_in_prefix, prefix_refl. Qed.

Lemma str_in_app_l (p s t : string) :
  str_in p s = true -> str_in p (s +:+ t) = true.
Proof.
  induction s as [|d s IH]; simpl; intros Hin.
  - rewrite orb_false_r in Hin. destruct p; [|done]. by destruct t.
  - apply orb_true_iff in Hin as [Hp|Hs].
    + apply (prefix_app p (String d s) t) in Hp. simpl in Hp. by rewrite Hp.
    + rewrite (IH Hs). apply orb_true_r.
Qed.

Lemma str_in_app_r (p s t : string) :
  str_in p t = true -> str_in p (s +:+ t) = true.
Proof.
  intros Hin. induction s as [|d s IH]; simpl; [done|].
  rewrite IH. apply orb_true_r.
Qed.

(** The characters of a string followed by a string that starts with a
    new character. *)
Lemma chars_from_app (cur s : string) (c : ascii) (t : string) :
  is_cont c = false ->
  chars_from cur (s +:+ String c t)
    = (chars_from cur s ++ chars (String c t))%list.
Proof.
  intros Hc. revert cur.
  induction s as [|d s IH]; intros cur.
  - change ("" +:+ String c t) with (String c t).
    cbn [chars_from chars]. by rewrite Hc.
  - change (String d s +:+ String c t) with (String d (s +:+ String c t)).
    cbn [chars_from]. destruct (is_cont d); rewrite IH; done.
Qed.

Lemma chars_app (s : string) (c : ascii) (t : string) :
  is_cont c = false ->
  chars (s +:+ String c t) = (chars s ++ chars (String c t))%list.
Proof.
  intros Hc. destruct s as [|d s]; [done|].
  change (String d s +:+ String c t) with (String d (s +:+ String c t)).
  unfold chars at 1 2. by apply chars_from_app.
Qed.

Lemma all_space_app (s : string) (c : ascii) (t : string) :
  is_cont c = false ->
  all_space (s +:+ String c t) = all_space s && all_space (String c t).
Proof.
  intros Hc. unfold all_space. by rewrite chars_app, forallb_app.
Qed.

(** A string with the words " AQI today" after it is not white space. *)
Lemma query_not_all_space (location : string) :
  all_space (location +:+ " AQI today") = false.
Proof.
  rewrite (all_space_app location " " "AQI today") by done.
  apply andb_false_r.
Qed.

(* ===================================================================== *)
(** ** The snippet parser                                                 *)
(* ===================================================================== *)

(** The four tests of the [if] amount to the first one. *)
Section ParserProperties.
Context `{PyBuiltins}.

Lemma pm25_tests (text : string) :
  str_in "pm2.5" (lower text) || str_in "pm2.5" text
    || str_in "pm2.5" (lower text) || str_in "pm2.5" text
  = str_in "pm2.5" (lower text).
Proof.
  destruct (str_in "pm2.5" (lower text)) eqn:Hl; [done|].
  destruct (str_in "pm2.5" text) eqn:Ht; [|done].
  apply (lower_ascii_part "pm2.5") in Ht; [|done].
  change (ascii_lower "pm2.5") with "pm2.5" in Ht. congruence.
Qed.

(** The parser on a string, with the test reduced. *)
Lemma parse_search_snippet_str (text : string) :
  parse_search_snippet (PStr text) =
    if str_in "pm2.5" (lower text) then
      if str_in "86" text
      then {[ "pm25" := PFloat 86.0; "pm10" := PFloat 150.0; "aqi" := PInt 128 ]}
      else {[ "pm25" := PFloat 55.0; "pm10" := PFloat 90.0; "aqi" := PInt 80 ]}
    else ∅.
Proof.
  unfold parse_search_snippet, parse_search_snippet_body.
  rewrite pm25_tests.
  destruct (str_in "pm2.5" (lower text)); [|done].
  destruct (str_in "86" text); by vm_compute.
Qed.

(** C4. The snippet parser returns the empty mapping on a text without
    "pm2.5" (in any case); with "pm2.5" and "86" it returns exactly
    pm25 = 86.0, pm10 = 150.0, aqi = 128; with "pm2.5" and without "86"
    exactly pm25 = 55.0, pm10 = 90.0, aqi = 80. *)
Theorem parse_search_snippet_spec (text : string) :
  (str_in "pm2.5" (lower text) = false ->
     parse_search_snippet (PStr text) = ∅) /\
  (str_in "pm2.5" (lower text) = true -> str_in "86" text = true ->
     parse_search_snippet (PStr text) =
       {[ "pm25" := PFloat 86.0; "pm10" := PFloat 150.0; "aqi" := PInt 128 ]}) /\
  (str_in "pm2.5" (lower text) = true -> str_in "86" text = false ->
     parse_search_snippet (PStr text) =
       {[ "pm25" := PFloat 55.0; "pm10" := PFloat 90.0; "aqi" := PInt 80 ]}).
Proof.
  rewrite parse_search_snippet_str.
  repeat split.
  - by intros ->.
  - by intros -> ->.
  - by intros -> ->.
Qed.
End ParserProperties.

Lemma parse_search_snippet_spec_witness :
  parse_search_snippet (PStr "weather is fine") = ∅ /\
  parse_search_snippet (PStr "AQI Chennai: 128. PM2.5: 86 µg/m3.") =
    {[ "pm25" := PFloat 86.0; "pm10" := PFloat 150.0; "aqi" := PInt 128 ]} /\
  parse_search_snippet (PStr "Pm2.5 is 40 today") =
    {[ "pm25" := PFloat 55.0; "pm10" := PFloat 90.0; "aqi" := PInt 80 ]}.
Proof.
  split; [|split].
  - apply (proj1 (parse_search_snippet_spec "weather is fine")).
    vm_compute; reflexivity.
  - apply (proj1 (proj2 (parse_search_snippet_spec
                           "AQI Chennai: 128. PM2.5: 86 µg/m3."))).
    + vm_compute; reflexivity.
    + vm_compute; reflexivity.
  - apply (proj2 (proj2 (parse_search_snippet_spec "Pm2.5 is 40 today"))).
    + vm_compute; reflexivity.
    + vm_compute; reflexivity.
Defined.

(* ===================================================================== *)
(** ** The search stub                                                    *)
(* ===================================================================== *)

Lemma split_ws_some (w : string) (cs : list string) :
  split_ws (Some w) cs <> [].
Proof.
  revert w. induction cs as [|ch cs IH]; intros w; cbn [split_ws]; [done|].
  destruct (is_space ch); [done|apply IH].
Qed.

(** No token is found exactly when every character is white space. *)
Lemma split_nil_iff (s : string) : split s = [] <-> all_space s = true.
Proof.
  unfold split, all_space.
  induction (chars s) as [|ch cs IH]; cbn [split_ws forallb]; [done|].
  destruct (is_space ch); [exact IH|].
  split; [|done]. intros Hnil. by apply split_ws_some in Hnil.
Qed.

Lemma snippet_tail_mentions : str_in "PM2.5: 86" GoogleSearchTool.snippet_tail = true.
Proof. by vm_compute. Qed.

(** C10. The search stub returns only for a query with a token, i.e. a
    character that is not white space: then the record's result_snippet is
    built around the first token and contains "PM2.5: 86". On a query of
    white space only (that of Unicode, as [str.split] has it), the empty
    string among them, the token list is empty and indexing its first
    element raises [IndexError]. *)
Theorem search_stub_total_iff_token (now query : string) :
  (all_space query = false ->
     exists tok rec,
       head (split query) = Some tok /\
       GoogleSearchTool.run now query = Ok rec /\
       rec !! "result_snippet"
         = Some (PStr ("AQI " +:+ tok +:+ GoogleSearchTool.snippet_tail)) /\
       str_in "PM2.5: 86" ("AQI " +:+ tok +:+ GoogleSearchTool.snippet_tail)
         = true) /\
  (all_space query = true ->
     split query = [] /\ GoogleSearchTool.run now query = Raise IndexError) /\
  GoogleSearchTool.run now "" = Raise IndexError.
Proof.
  unfold GoogleSearchTool.run. split; [|split; [|done]].
  - intros Hsp. destruct (split query) as [|tok rest] eqn:Hs.
    + apply split_nil_iff in Hs. congruence.
    + eexists tok, _. split; [done|]. split; [done|]. split.
      * by vm_compute.
      * do 2 apply str_in_app_r. exact snippet_tail_mentions.
  - intros Hsp. apply split_nil_iff in Hsp. by rewrite Hsp.
Qed.

Lemma search_stub_total_iff_token_witness :
  (exists tok rec,
     head (split "Chennai AQI today") = Some tok /\
     GoogleSearchTool.run "2025-11-30T06:00:00" "Chennai AQI today" = Ok rec /\
     rec !! "result_snippet"
       = Some (PStr ("AQI " +:+ tok +:+ GoogleSearchTool.snippet_tail)) /\
     str_in "PM2.5: 86" ("AQI " +:+ tok +:+ GoogleSearchTool.snippet_tail)
       = true) /\
  (split "  " = [] /\
   GoogleSearchTool.run "2025-11-30T06:00:00" "  " = Raise IndexError) /\
  (split Sample.wide_blank = [] /\
   GoogleSearchTool.run "2025-11-30T06:00:00" Sample.wide_blank
     = Raise IndexError).
Proof.
  pose proof (search_stub_total_iff_token "2025-11-30T06:00:00"
                "Chennai AQI today") as [Htok _].
  pose proof (search_stub_total_iff_token "2025-11-30T06:00:00" "  ")
    as [_ [Hws _]].
  pose proof (search_stub_total_iff_token "2025-11-30T06:00:00"
                Sample.wide_blank) as [_ [Hwide _]].
  split; [apply Htok|split; [apply Hws|apply Hwide]]; vm_compute; reflexivity.
Defined.

(* ===================================================================== *)
(** ** The CSV lookup                                                     *)
(* ===================================================================== *)

Lemma dict_truthy_lookup {V} (d : gmap string V) (k : string) (v : V) :
  d !! k = Some v -> dict_truthy d = true.
Proof.
  intros Hk. unfold dict_truthy.
  destruct (size d) eqn:Hsz; [|done].
  apply map_size_empty_iff in Hsz. subst d. by rewrite lookup_empty in Hk.
Qed.

Section CsvLookup.
Context `{PyBuiltins}.

(** The loop keeps in [latest] the last matching row met so far. *)
Lemma scan_last_match (location : string) (reader : list pydict)
    (latest : option pydict) :
  Forall CsvSpec.has_location reader ->
  CSVLoaderTool.scan location reader latest =
    Ok (match CsvSpec.last_match location reader with
        | Some row => Some row
        | None => latest
        end).
Proof.
  intros Hloc. revert latest.
  induction Hloc as [|row rest [s Hs] _ IH]; intros latest; [done|].
  cbn [CSVLoaderTool.scan]. unfold dict_get_or. rewrite Hs. simpl.
  unfold CsvSpec.last_match in *. cbn [List.filter].
  unfold CsvSpec.row_matches at 1. rewrite Hs.
  destruct (String.eqb (lower s) (lower location)).
  - rewrite IH, last_cons. by destruct (last _).
  - apply IH.
Qed.


End CsvLookup.



(* ===================================================================== *)
(** ** The data fetch                                                     *)
(* ===================================================================== *)

Section Fetch.
Context `{PyBuiltins}.

Lemma fetch_search_fails (self : Agent) (now location : string) :
  search_fails self location ->
  exists e, DataAgent.fetch_search self now location = Raise e.
Proof.
  unfold DataAgent.fetch_search.
  intros [[e He]|[res [Hres Hparse]]].
  - exists e. by rewrite He.
  - exists ValueError. rewrite Hres. simpl. by rewrite Hparse.
Qed.

(** When the search path fails, [fetch] is its [except] block. *)
Lemma fetch_falls_back (self : Agent) (now location : string) :
  search_fails self location ->
  DataAgent.fetch self now location = DataAgent.fetch_csv self location.
Proof.
  intros Hs. destruct (fetch_search_fails self now location Hs) as [e He].
  unfold DataAgent.fetch. by rewrite He.
Qed.

(** With the stub of [src/tools.py] as the search tool, the search path
    always succeeds: the query has a token, and the snippet built around
    it has both "PM2.5" and "86". *)
Lemma fetch_with_stub (self : Agent) (now stamp location : string) :
  tools self !! "google_search" = Some (GoogleSearchTool.run stamp) ->
  DataAgent.fetch self now location
    = Ok {[ "pm25" := PFloat 86.0; "pm10" := PFloat 150.0; "aqi" := PInt 128;
            "source" := PStr "google_search";
            "timestamp" := PStr (if String.eqb stamp "" then now else stamp) ]}.
Proof.
  intros Htool.
  unfold DataAgent.fetch, DataAgent.fetch_search, call_tool. rewrite Htool.
  unfold GoogleSearchTool.run.
  destruct (split (location +:+ " AQI today")) as [|tok rest] eqn:Hsplit.
  { apply split_nil_iff in Hsplit.
    by rewrite query_not_all_space in Hsplit. }
  cbn [mbind result_bind try_except].
  assert (parse_search_snippet
            (PStr ("AQI " +:+ tok +:+ GoogleSearchTool.snippet_tail))
          = {[ "pm25" := PFloat 86.0; "pm10" := PFloat 150.0;
               "aqi" := PInt 128 ]}) as Hparse.
  { rewrite parse_search_snippet_str.
    assert (str_in "pm2.5"
              (lower ("AQI " +:+ tok +:+ GoogleSearchTool.snippet_tail))
            = true) as ->
      by (apply (lower_ascii_part "PM2.5"); [done|];
          by do 2 apply str_in_app_r).
    assert (str_in "86" ("AQI " +:+ tok +:+ GoogleSearchTool.snippet_tail)
            = true) as -> by (by do 2 apply str_in_app_r).
    done. }
  assert (dict_get_or
            ({[ "query" := PStr (location +:+ " AQI today");
                "timestamp" := PStr stamp;
                "result_snippet" :=
                  PStr ("AQI " +:+ tok +:+ GoogleSearchTool.snippet_tail);
                "raw_html" := PStr "<html>...</html>" ]} : pydict)
            "result_snippet" (PStr "")
          = PStr ("AQI " +:+ tok +:+ GoogleSearchTool.snippet_tail)) as ->
    by (by vm_compute).
  rewrite Hparse.
  assert (dict_get
            ({[ "query" := PStr (location +:+ " AQI today");
                "timestamp" := PStr stamp;
                "result_snippet" :=
                  PStr ("AQI " +:+ tok +:+ GoogleSearchTool.snippet_tail);
                "raw_html" := PStr "<html>...</html>" ]} : pydict)
            "timestamp"
          = PStr stamp) as -> by (by vm_compute).
  cbn [truthy]. destruct (String.eqb stamp ""); by vm_compute.
Qed.

(** C2, as the code has it. When the search path fails, the CSV adapter is
    called with the same location. The fetch returns the record
    "no data available" exactly when the adapter's result is an error
    record. Otherwise, when pm25 and pm10 are there and coerce to float and
    aqi (-1 when absent) coerces to int, the fetch returns the reading made
    of them, with the row's date and the source "sample_csv"; when one of
    the coercions raises, so does the fetch. *)
Theorem fetch_fallback (self : Agent) (now location : string)
    (csv_res : pydict) :
  search_fails self location ->
  call_tool self "csv_loader" location = Ok csv_res ->
  (DataAgent.fetch self now location
     = Ok {[ "error" := PStr "no data available" ]}
   <-> is_error_record csv_res = true) /\
  (is_error_record csv_res = false ->
   forall pm25 pm10 aqi,
     coercions csv_res = Ok (pm25, pm10, aqi) ->
     DataAgent.fetch self now location
       = Ok {[ "pm25" := PFloat pm25; "pm10" := PFloat pm10;
               "aqi" := PInt aqi; "timestamp" := dict_get csv_res "date";
               "source" := PStr "sample_csv" ]}) /\
  (is_error_record csv_res = false ->
   forall e,
     coercions csv_res = Raise e ->
     DataAgent.fetch self now location = Raise e) /\
  (csv_res !! "aqi" = None ->
     py_int (dict_get_or csv_res "aqi" (PInt (-1))) = Ok (-1)%Z).
Proof.
  intros Hs Hcsv. rewrite (fetch_falls_back _ _ _ Hs).
  unfold DataAgent.fetch_csv, coercions, is_error_record. rewrite Hcsv. simpl.
  destruct (truthy (dict_get csv_res "error")) eqn:Herr.
  - split; [done|]. split; [done|]. split; [done|].
    intros Ha. unfold dict_get_or. by rewrite Ha.
  - split; [|split; [|split]].
    + split; [|done]. intros Hret.
      destruct (dict_item csv_res "pm25" ≫= py_float) as [p25|]; [|done].
      destruct (dict_item csv_res "pm10" ≫= py_float) as [p10|]; [|done].
      destruct (py_int _) as [a|]; [|done]. simpl in Hret.
      apply (f_equal (fun r : result pydict =>
                        match r with
                        | Ok d => d !! "source"
                        | Raise _ => None
                        end)) in Hret.
      by vm_compute in Hret.
    + intros _ pm25 pm10 aqi Hco.
      destruct (dict_item csv_res "pm25" ≫= py_float) as [p25|];
        simpl in *; try done.
      destruct (dict_item csv_res "pm10" ≫= py_float) as [p10|];
        simpl in *; try done.
      destruct (py_int _) as [a|]; simpl in *; try done.
      by injection Hco as -> -> ->.
    + intros _ e Hco.
      destruct (dict_item csv_res "pm25" ≫= py_float) as [p25|];
        simpl in *; [|congruence].
      destruct (dict_item csv_res "pm10" ≫= py_float) as [p10|];
        simpl in *; [|congruence].
      destruct (py_int _) as [a|]; simpl in *; congruence.
    + intros Ha. unfold dict_get_or. by rewrite Ha.
Qed.
End Fetch.

Lemma fetch_fallback_witness :
  DataAgent.fetch (Sample.agent Sample.no_result_search (Rows Sample.rows))
      Sample.now "Chennai"
    = Ok {[ "pm25" := PFloat 70.0; "pm10" := PFloat 110.0;
            "aqi" := PInt 102; "timestamp" := PStr "2025-11-02";
            "source" := PStr "sample_csv" ]} /\
  DataAgent.fetch (Sample.agent Sample.no_result_search Missing)
      Sample.now "Chennai"
    = Ok {[ "error" := PStr "no data available" ]}.
Proof.
  split.
  - apply (proj1 (proj2 (fetch_fallback
             (Sample.agent Sample.no_result_search (Rows Sample.rows))
             Sample.now "Chennai"
             (Sample.row "chennai" "70.0" "110.0" "102" "2025-11-02")
             ltac:(right; eexists; split; vm_compute; reflexivity)
             ltac:(vm_compute; reflexivity)))).
    + vm_compute; reflexivity.
    + vm_compute; reflexivity.
  - apply (proj1 (fetch_fallback
             (Sample.agent Sample.no_result_search Missing)
             Sample.now "Chennai"
             {[ "error" := PStr "sample data missing";
                "path" := PStr Sample.csv_path ]}
             ltac:(right; eexists; split; vm_compute; reflexivity)
             ltac:(vm_compute; reflexivity))).
    vm_compute; reflexivity.
Defined.

(** C2 as stated fails on a row whose pm25 is not a number: the search
    path fails, the CSV adapter's result is no error record, and yet the
    fetch returns no reading: [float("n/a")] raises [ValueError], which
    nothing catches. *)
Lemma fetch_fallback_counterexample :
  search_fails
    (Sample.agent Sample.no_result_search (Rows Sample.malformed_rows))
    "Chennai" /\
  (exists csv_res,
     call_tool
       (Sample.agent Sample.no_result_search (Rows Sample.malformed_rows))
       "csv_loader" "Chennai" = Ok csv_res /\
     is_error_record csv_res = false) /\
  DataAgent.fetch
    (Sample.agent Sample.no_result_search (Rows Sample.malformed_rows))
    Sample.now "Chennai" = Raise ValueError /\
  ~ (exists reading,
       DataAgent.fetch
         (Sample.agent Sample.no_result_search (Rows Sample.malformed_rows))
         Sample.now "Chennai" = Ok reading).
Proof.
  assert (DataAgent.fetch
            (Sample.agent Sample.no_result_search (Rows Sample.malformed_rows))
            Sample.now "Chennai" = Raise ValueError) as Hraise
    by (vm_compute; reflexivity).
  split; [|split; [|split]].
  - right. eexists. split; vm_compute; reflexivity.
  - eexists. split; vm_compute; reflexivity.
  - exact Hraise.
  - intros [reading Hr]. rewrite Hraise in Hr. discriminate.
Qed.

(* ===================================================================== *)
(** ** Binary64: products by 0.8 and by 1.3                               *)
(* ===================================================================== *)

(** For a positive float [M], the rounded product [M * 0.8] is at most [M]
    and [M * 1.3] is at least [M]: the tests [today_pm > M * 1.3] and
    [today_pm < M * 0.8] never hold together. The proof follows the
    rounding of [SpecFloat.binary_round_aux] on the exact product. *)

Section Binary64.
Local Open Scope Z_scope.

Lemma fexp_eq (x : Z) : fexp prec emax x = Z.max (x - 53) (-1074).
Proof. reflexivity. Qed.

Lemma digits2_pos_bounds (p : positive) :
  2 ^ (Zpos (digits2_pos p) - 1) <= Zpos p < 2 ^ Zpos (digits2_pos p).
Proof.
  induction p as [p IH|p IH|]; cbn [digits2_pos].
  - rewrite Pos2Z.inj_succ.
    replace (Z.succ (Zpos (digits2_pos p)) - 1) with (Z.succ (Zpos (digits2_pos p) - 1)) by lia.
    rewrite !Z.pow_succ_r by lia. lia.
  - rewrite Pos2Z.inj_succ.
    replace (Z.succ (Zpos (digits2_pos p)) - 1) with (Z.succ (Zpos (digits2_pos p) - 1)) by lia.
    rewrite !Z.pow_succ_r by lia. lia.
  - simpl. lia.
Qed.

Lemma digits_le (p : positive) (n : Z) :
  Zpos p < 2 ^ n -> Zpos (digits2_pos p) <= n.
Proof.
  intros Hlt. destruct (Z.le_gt_cases (Zpos (digits2_pos p)) n) as [|Hgt]; [done|].
  pose proof (digits2_pos_bounds p) as [Hlo _].
  destruct (Z.le_gt_cases 0 n) as [Hn|Hn].
  - assert (2 ^ n <= 2 ^ (Zpos (digits2_pos p) - 1)) by (apply Z.pow_le_mono_r; lia).
    lia.
  - rewrite Z.pow_neg_r in Hlt by lia. lia.
Qed.

Lemma digits_ge (p : positive) (n : Z) :
  2 ^ n <= Zpos p -> n + 1 <= Zpos (digits2_pos p).
Proof.
  intros Hle. destruct (Z.le_gt_cases (n + 1) (Zpos (digits2_pos p))) as [|Hgt]; [done|].
  pose proof (digits2_pos_bounds p) as [_ Hhi].
  assert (2 ^ Zpos (digits2_pos p) <= 2 ^ n) by (apply Z.pow_le_mono_r; lia).
  lia.
Qed.

Lemma iter_pos_nat {A} (f : A -> A) (n : positive) (x : A) :
  SpecFloat.iter_pos f n x = Nat.iter (Pos.to_nat n) f x.
Proof.
  revert x. induction n as [n IH|n IH|]; intros x; cbn [SpecFloat.iter_pos].
  - rewrite !IH, Pos2Nat.inj_xI, <- Nat.iter_add, <- Nat.iter_succ_r.
    f_equal. lia.
  - rewrite !IH, Pos2Nat.inj_xO, <- Nat.iter_add. f_equal. lia.
  - reflexivity.
Qed.

Lemma shr_1_m (mrs : shr_record) :
  0 <= shr_m mrs -> shr_m (shr_1 mrs) = shr_m mrs / 2.
Proof.
  destruct mrs as [m r s]. cbn [shr_m]. intros Hm.
  rewrite <- Z.div2_div.
  destruct m as [|[p|p|]|p]; try reflexivity. lia.
Qed.

Lemma iter_shr_m (k : nat) (mrs : shr_record) :
  0 <= shr_m mrs ->
  shr_m (Nat.iter k shr_1 mrs) = shr_m mrs / 2 ^ Z.of_nat k.
Proof.
  intros Hm. induction k as [|k IH].
  - simpl. by rewrite Z.div_1_r.
  - rewrite Nat.iter_succ, shr_1_m.
    + rewrite IH, Nat2Z.inj_succ, Z.pow_succ_r by lia.
      rewrite Z.div_div by lia. f_equal. lia.
    + rewrite IH. apply Z.div_pos; lia.
Qed.

Lemma round_nearest_even_bounds (mx : Z) (lx : location) :
  mx <= round_nearest_even mx lx <= mx + 1.
Proof.
  destruct lx as [|[]]; cbn [round_nearest_even]; try destruct (Z.even mx); lia.
Qed.

(** [shr] with no location to start from. *)
Lemma shr_exact (m e n : Z) :
  0 <= m ->
  (0 < n ->
     snd (shr (shr_record_of_loc m loc_Exact) e n) = e + n /\
     shr_m (fst (shr (shr_record_of_loc m loc_Exact) e n)) = m / 2 ^ n) /\
  (n <= 0 ->
     shr (shr_record_of_loc m loc_Exact) e n
       = (Build_shr_record m false false, e)).
Proof.
  intros Hm. unfold shr. destruct n as [|n|n]; cbn [shr_record_of_loc fst snd].
  - split; [lia|done].
  - split; [|lia]. intros _. split; [done|].
    rewrite iter_pos_nat, iter_shr_m by done. cbn [shr_m].
    by rewrite positive_nat_Z.
  - split; [lia|done].
Qed.

Lemma zdigits_le (x n : Z) : 0 <= x -> 0 <= n -> x < 2 ^ n -> Zdigits2 x <= n.
Proof.
  intros Hx Hn Hlt. destruct x as [|p|p]; cbn [Zdigits2]; [lia| |lia].
  by apply digits_le.
Qed.

Lemma bounded_inv (m : positive) (e : Z) :
  bounded prec emax m e = true ->
  e = Z.max (Zpos (digits2_pos m) + e - 53) (-1074) /\ e <= 971.
Proof.
  unfold bounded, canonical_mantissa. rewrite fexp_eq.
  intros [H1 H2]%andb_true_iff.
  apply Z.eqb_eq in H1. apply Z.leb_le in H2.
  change (emax - prec) with 971 in H2. lia.
Qed.

(** The two steps of [binary_round_aux] on an exact product. *)
Lemma shr_fexp_exact (x e : Z) :
  0 <= x ->
  let n := fexp prec emax (Zdigits2 x + e) - e in
  let r := shr_fexp prec emax x e loc_Exact in
  (0 < n -> snd r = e + n /\ shr_m (fst r) = x / 2 ^ n) /\
  (n <= 0 -> r = (Build_shr_record x false false, e)).
Proof. intros Hx. apply (shr_exact x e _ Hx). Qed.

Lemma round_below (m c : positive) (e k : Z) :
  bounded prec emax m e = true ->
  0 < k -> Zpos c < 2 ^ k ->
  match binary_round_aux prec emax false (Zpos (m * c)) (e - k) loc_Exact with
  | S754_zero _ => True
  | S754_finite false m' e' => e' < e \/ (e' = e /\ Zpos m' <= Zpos m)
  | _ => False
  end.
Proof.
  intros [Hcan Hmax]%bounded_inv Hk Hc.
  pose proof (digits2_pos_bounds m) as [Hdlo Hdhi].
  set (d := Zpos (digits2_pos m)) in *.
  assert (0 < d) as Hd by done.
  unfold binary_round_aux.
  set (mx := Zpos (m * c)).
  assert (0 < mx < Zpos m * 2 ^ k) as Hmx.
  { unfold mx. rewrite Pos2Z.inj_mul. nia. }
  (* first step *)
  pose proof (shr_fexp_exact mx (e - k) ltac:(lia)) as [Hs1 Hn1].
  destruct (shr_fexp prec emax mx (e - k) loc_Exact) as [mrs1 e1].
  cbn [fst snd] in Hs1, Hn1. rewrite fexp_eq in Hs1, Hn1.
  assert (Zdigits2 mx <= d + k) as Hdm.
  { apply zdigits_le; [lia|lia|].
    rewrite Z.pow_add_r by lia. nia. }
  set (mx1 := round_nearest_even (shr_m mrs1) (loc_of_shr_record mrs1)).
  assert (e1 <= e /\ 0 <= mx1 <= Zpos m * 2 ^ (e - e1)) as [He1 Hmx1].
  { destruct (Z.lt_ge_cases 0 (Z.max (Zdigits2 mx + (e - k) - 53) (-1074) - (e - k)))
      as [Hpos|Hnon].
    - destruct (Hs1 Hpos) as [-> Hq]. split; [lia|].
      pose proof (round_nearest_even_bounds (shr_m mrs1) (loc_of_shr_record mrs1))
        as Hr. fold mx1 in Hr. rewrite Hq in Hr.
      set (j := Z.max (Zdigits2 mx + (e - k) - 53) (-1074) - (e - k)) in *.
      replace (e - k + j) with (e - (k - j)) by lia.
      replace (e - (e - (k - j))) with (k - j) by lia.
      assert (0 <= k - j) by lia.
      assert (0 <= mx / 2 ^ j) by (apply Z.div_pos; lia).
      assert (mx / 2 ^ j < Zpos m * 2 ^ (k - j)).
      { apply Z.div_lt_upper_bound; [lia|].
        assert (2 ^ k = 2 ^ j * 2 ^ (k - j)) as Hpow.
        { rewrite <- Z.pow_add_r by lia. f_equal. lia. }
        rewrite Hpow in Hmx. lia. }
      lia.
    - specialize (Hn1 ltac:(lia)). injection Hn1 as -> ->.
      subst mx1. cbn [shr_m loc_of_shr_record round_nearest_even].
      replace (e - (e - k)) with k by lia. lia. }
  clearbody mx1. clear Hs1 Hn1.
  (* second step *)
  pose proof (shr_fexp_exact mx1 e1 ltac:(lia)) as [Hs2 Hn2].
  destruct (shr_fexp prec emax mx1 e1 loc_Exact) as [mrs2 e2].
  cbn [fst snd] in Hs2, Hn2. rewrite fexp_eq in Hs2, Hn2.
  assert (Zdigits2 mx1 <= d + (e - e1)) as Hd1.
  { apply zdigits_le; [lia|lia|].
    rewrite Z.pow_add_r by lia.
    assert (0 < 2 ^ (e - e1)) by (apply Z.pow_pos_nonneg; lia). nia. }
  assert (0 <= shr_m mrs2 /\ e2 <= e /\ (e2 = e -> shr_m mrs2 <= Zpos m))
    as (Hm2 & He2 & Hle).
  { destruct (Z.lt_ge_cases 0 (Z.max (Zdigits2 mx1 + e1 - 53) (-1074) - e1))
      as [Hpos|Hnon].
    - destruct (Hs2 Hpos) as [-> ->].
      set (j := Z.max (Zdigits2 mx1 + e1 - 53) (-1074) - e1) in *.
      split; [apply Z.div_pos; lia|]. split; [lia|].
      intros Hej. replace j with (e - e1) by lia.
      apply Z.div_le_upper_bound; [apply Z.pow_pos_nonneg; lia|]. lia.
    - specialize (Hn2 ltac:(lia)). injection Hn2 as -> ->. cbn [shr_m].
      split; [lia|]. split; [lia|]. intros ->.
      replace (e - e) with 0 in Hmx1 by lia. simpl in Hmx1. lia. }
  destruct (shr_m mrs2) as [|m2|m2]; [done| |lia].
  change (emax - prec) with 971.
  destruct (Z.leb_spec e2 971); [|lia].
  destruct (Z.eq_dec e2 e); [right|left]; lia.
Qed.

Lemma zdigits_bounds (x : Z) :
  0 < x -> 2 ^ (Zdigits2 x - 1) <= x < 2 ^ Zdigits2 x.
Proof.
  destruct x as [|p|p]; [lia| |lia]. intros _. apply digits2_pos_bounds.
Qed.

Lemma zdigits_ge (x n : Z) : 2 ^ n <= x -> 0 < x -> n + 1 <= Zdigits2 x.
Proof.
  destruct x as [|p|p]; [lia| |lia]. intros Hle _. by apply digits_ge.
Qed.

(** Dropping fewer bits than a positive number has leaves it positive. *)
Lemma div_pow_pos (x n : Z) : 0 < x -> 0 <= n < Zdigits2 x -> 1 <= x / 2 ^ n.
Proof.
  intros Hx Hn. pose proof (zdigits_bounds x Hx) as [Hlo _].
  apply Z.div_le_lower_bound; [apply Z.pow_pos_nonneg; lia|].
  assert (2 ^ n <= 2 ^ (Zdigits2 x - 1)) by (apply Z.pow_le_mono_r; lia).
  lia.
Qed.

Lemma round_above (m c : positive) (e k : Z) :
  bounded prec emax m e = true ->
  0 < k -> 2 ^ k <= Zpos c ->
  match binary_round_aux prec emax false (Zpos (m * c)) (e - k) loc_Exact with
  | S754_infinity false => True
  | S754_finite false m' e' => e < e' \/ (e' = e /\ Zpos m <= Zpos m')
  | _ => False
  end.
Proof.
  intros [Hcan Hmax]%bounded_inv Hk Hc.
  pose proof (digits2_pos_bounds m) as [Hdlo Hdhi].
  set (d := Zpos (digits2_pos m)) in *.
  assert (0 < d) as Hd by done.
  unfold binary_round_aux.
  set (mx := Zpos (m * c)).
  assert (0 < 2 ^ k) as Hpk by (apply Z.pow_pos_nonneg; lia).
  assert (Zpos m * 2 ^ k <= mx) as Hmx.
  { unfold mx. rewrite Pos2Z.inj_mul. nia. }
  assert (0 < mx) as Hmx0 by done.
  assert (d + k <= Zdigits2 mx) as Hdm.
  { replace (d + k) with (d + k - 1 + 1) by lia. apply zdigits_ge; [|done].
    replace (d + k - 1) with (d - 1 + k) by lia.
    rewrite Z.pow_add_r by lia. nia. }
  (* first step *)
  pose proof (shr_fexp_exact mx (e - k) ltac:(lia)) as [Hs1 _].
  destruct (shr_fexp prec emax mx (e - k) loc_Exact) as [mrs1 e1].
  cbn [fst snd] in Hs1. rewrite fexp_eq in Hs1.
  destruct (Hs1 ltac:(lia)) as [He1 Hq]. clear Hs1.
  pose proof (round_nearest_even_bounds (shr_m mrs1) (loc_of_shr_record mrs1))
    as [Hr _].
  set (mx1 := round_nearest_even (shr_m mrs1) (loc_of_shr_record mrs1)) in *.
  assert (e <= e1 /\ 1 <= mx1 /\ (e1 = e -> Zpos m <= mx1)) as (Hee & Hmx1 & Hsame).
  { split; [lia|].
    assert (1 <= shr_m mrs1).
    { rewrite Hq. apply div_pow_pos; [done|]. lia. }
    split; [lia|]. intros Heq.
    assert (Z.max (Zdigits2 mx + (e - k) - 53) (-1074) - (e - k) = k) as Hn by lia.
    rewrite Hn in Hq.
    assert (Zpos m <= mx / 2 ^ k) by (apply Z.div_le_lower_bound; lia).
    lia. }
  clearbody mx1. clear Hq Hr.
  (* second step *)
  pose proof (shr_fexp_exact mx1 e1 ltac:(lia)) as [Hs2 Hn2].
  destruct (shr_fexp prec emax mx1 e1 loc_Exact) as [mrs2 e2].
  cbn [fst snd] in Hs2, Hn2. rewrite fexp_eq in Hs2, Hn2.
  assert (1 <= shr_m mrs2 /\ e <= e2 /\ (e2 = e -> Zpos m <= shr_m mrs2))
    as (Hm2 & He2 & Hle).
  { destruct (Z.lt_ge_cases 0 (Z.max (Zdigits2 mx1 + e1 - 53) (-1074) - e1))
      as [Hpos|Hnon].
    - destruct (Hs2 Hpos) as [-> ->].
      split; [|lia]. apply div_pow_pos; lia.
    - specialize (Hn2 ltac:(lia)). injection Hn2 as -> ->. cbn [shr_m].
      split; [lia|]. split; [lia|]. intros ->. by apply Hsame. }
  destruct (shr_m mrs2) as [|m2|m2]; [lia| |lia].
  change (emax - prec) with 971.
  destruct (Z.leb_spec e2 971); [|done].
  destruct (Z.eq_dec e2 e); [right|left]; lia.
Qed.

(** The order of [SFcompare] on two positive finite floats. *)
Lemma SFltb_finite (m1 m2 : positive) (e1 e2 : Z) :
  SFltb (S754_finite false m1 e1) (S754_finite false m2 e2) = true <->
  e1 < e2 \/ (e1 = e2 /\ Zpos m1 < Zpos m2).
Proof.
  unfold SFltb, SFcompare.
  change (Pos.compare_cont Eq m1 m2) with (Pos.compare m1 m2).
  destruct (Z.compare_spec e1 e2); [|split; [lia|done]|split; [done|lia]].
  destruct (Pos.compare_spec m1 m2); split; try done; lia.
Qed.

Lemma product_order (M t : float) :
  (0 <? M)%float = true ->
  (t <? M * 0.8)%float = true ->
  (M * 1.3 <? t)%float = false.
Proof.
  rewrite !FloatAxioms.ltb_spec, !FloatAxioms.mul_spec.
  change (Prim2SF 0) with (S754_zero false).
  change (Prim2SF 0.8) with (S754_finite false 7205759403792794 (-53)).
  change (Prim2SF 1.3) with (S754_finite false 5854679515581645 (-52)).
  pose proof (FloatAxioms.Prim2SF_valid M) as Hvalid.
  destruct (Prim2SF M) as [s|s| |s m e]; try done.
  - destruct s; [done|]. intros _.
    destruct (Prim2SF t) as [st|st| |st mt et]; try done; by destruct st.
  - destruct s; [done|]. intros _. cbn [valid_binary] in Hvalid.
    pose proof (round_below m 7205759403792794 e 53 Hvalid ltac:(lia) ltac:(done))
      as Hlo.
    pose proof (round_above m 5854679515581645 e 52 Hvalid ltac:(lia) ltac:(done))
      as Hhi.
    unfold SF64mul, SFmul. cbn [xorb].
    change (e + -53) with (e - 53). change (e + -52) with (e - 52).
    destruct (binary_round_aux prec emax false (Zpos (m * 7205759403792794))
                (e - 53) loc_Exact) as [sa|sa| |sa ma ea]; try done;
    destruct (binary_round_aux prec emax false (Zpos (m * 5854679515581645))
                (e - 52) loc_Exact) as [sb|sb| |sb mb eb]; try done;
    try (destruct sa; [done|]); try (destruct sb; [done|]);
    destruct (Prim2SF t) as [st|st| |st mt et]; try done;
    try (destruct st; done).
    destruct st; [done|].
    rewrite SFltb_finite. intros Hta.
    destruct (SFltb (S754_finite false mb eb) (S754_finite false mt et)) eqn:Hbt;
      [|done].
    apply SFltb_finite in Hbt. lia.
Qed.
End Binary64.

(* ===================================================================== *)
(** ** The trend classifier                                               *)
(* ===================================================================== *)

Section Analysis.
Context `{PyBuiltins}.

Lemma float_of_zero : py_float (PInt 0) = Ok 0.0.
Proof. by vm_compute. Qed.

(** The comprehension keeps every row whose pm25 is not the empty string,
    and reads a missing pm25 as 0.0. *)
Lemma past_vals_cons (x : pydict) (rest : list pydict) :
  AnalysisAgent.past_vals (x :: rest) =
    if negb (TrendSpec.pm25_empty x)
    then v ← TrendSpec.pm25_value x;
         vs ← AnalysisAgent.past_vals rest;
         Ok (v :: vs)
    else AnalysisAgent.past_vals rest.
Proof.
  cbn [AnalysisAgent.past_vals].
  unfold dict_get, dict_get_or, TrendSpec.pm25_empty, TrendSpec.pm25_value.
  destruct (x !! "pm25") as [v|]; cbn [default ne_empty_str negb].
  - by destruct v.
  - by rewrite float_of_zero.
Qed.

Lemma past_vals_used_vals (hist : list pydict) :
  AnalysisAgent.past_vals hist = TrendSpec.used_vals hist.
Proof.
  unfold TrendSpec.used_vals, TrendSpec.values.
  induction hist as [|x rest IH]; [done|].
  rewrite past_vals_cons. cbn [List.filter].
  destruct (negb (TrendSpec.pm25_empty x)); [|exact IH].
  cbn [mapM]. by rewrite IH.
Qed.

Lemma analyze_error (datapoint : pydict) (recent_series : option (list pydict))
    (e : exn) :
  py_float (dict_get_or datapoint "pm25" (PInt 0)) = Raise e ->
  AnalysisAgent.analyze datapoint recent_series
    = Ok {[ "error" := PStr "analysis_error" ]}.
Proof.
  intros He. unfold AnalysisAgent.analyze, AnalysisAgent.analyze_body.
  by rewrite He.
Qed.

(** With a mean, [analyze] is the three-way classification. *)
Lemma analyze_classify (datapoint : pydict) (hist : list pydict)
    (today_pm : float) (vals : list float) :
  py_float (dict_get_or datapoint "pm25" (PInt 0)) = Ok today_pm ->
  hist <> [] ->
  AnalysisAgent.past_vals hist = Ok vals ->
  vals <> [] ->
  AnalysisAgent.analyze datapoint (Some hist) =
    Ok (if 0.0 <? AnalysisAgent.mean vals
        then AnalysisAgent.classify AnalysisAgent.default_result today_pm
               (AnalysisAgent.mean vals)
        else AnalysisAgent.default_result).
Proof.
  intros Ht Hh Hv Hne.
  destruct hist as [|x rest]; [done|]. destruct vals as [|v vals]; [done|].
  unfold AnalysisAgent.analyze, AnalysisAgent.analyze_body.
  rewrite Ht. cbn [mbind result_bind]. rewrite Hv. cbn [mbind result_bind].
  by destruct (0.0 <? AnalysisAgent.mean (v :: vals)).
Qed.

(** C1. For a reading whose pm25 coerces to the number [today_pm] and a
    non-empty history whose mean [M] is computed and positive, the
    classifier returns "rising" with anomaly true when today_pm > 1.3 M,
    "falling" with anomaly false when today_pm < 0.8 M, and "stable"
    otherwise, each time with confidence 0.9. The comparisons and the
    products are those of binary64 floats; the first two cases exclude
    each other ([product_order]). *)
Theorem analyze_trend (datapoint : pydict) (hist : list pydict)
    (today_pm M : float) (vals : list float) :
  py_float (dict_get_or datapoint "pm25" (PInt 0)) = Ok today_pm ->
  hist <> [] ->
  AnalysisAgent.past_vals hist = Ok vals ->
  vals <> [] ->
  M = AnalysisAgent.mean vals ->
  (0.0 <? M) = true ->
  ((M * 1.3 <? today_pm) = true ->
     AnalysisAgent.analyze datapoint (Some hist)
       = Ok {[ "trend" := PStr "rising"; "anomaly" := PBool true;
               "confidence" := PFloat 0.9 ]}) /\
  ((today_pm <? M * 0.8) = true ->
     AnalysisAgent.analyze datapoint (Some hist)
       = Ok {[ "trend" := PStr "falling"; "anomaly" := PBool false;
               "confidence" := PFloat 0.9 ]}) /\
  ((M * 1.3 <? today_pm) = false -> (today_pm <? M * 0.8) = false ->
     AnalysisAgent.analyze datapoint (Some hist)
       = Ok {[ "trend" := PStr "stable"; "anomaly" := PBool false;
               "confidence" := PFloat 0.9 ]}).
Proof.
  intros Ht Hh Hv Hne -> Hpos.
  rewrite (analyze_classify _ _ _ _ Ht Hh Hv Hne), Hpos.
  unfold AnalysisAgent.classify, AnalysisAgent.default_result.
  split; [|split].
  - intros ->. by vm_compute.
  - intros Hlt. rewrite (product_order _ _ Hpos Hlt), Hlt. by vm_compute.
  - intros -> ->. by vm_compute.
Qed.

(** C5, as the code has it. The mean the classifier uses is the sum over
    the count of the pm25 values of the history rows, where a row whose
    pm25 is the empty string is skipped, and a row without a pm25 field is
    kept and counts as 0.0. *)
Theorem mean_over_used_vals (datapoint : pydict) (hist : list pydict)
    (today_pm : float) (vals : list float) :
  py_float (dict_get_or datapoint "pm25" (PInt 0)) = Ok today_pm ->
  hist <> [] ->
  TrendSpec.used_vals hist = Ok vals ->
  vals <> [] ->
  AnalysisAgent.past_vals hist = Ok vals /\
  AnalysisAgent.mean vals = TrendSpec.arithmetic_mean vals /\
  AnalysisAgent.analyze datapoint (Some hist) =
    Ok (if 0.0 <? TrendSpec.arithmetic_mean vals
        then AnalysisAgent.classify AnalysisAgent.default_result today_pm
               (TrendSpec.arithmetic_mean vals)
        else AnalysisAgent.default_result).
Proof.
  intros Ht Hh Hv Hne. rewrite <- past_vals_used_vals in Hv.
  split; [done|]. split; [done|].
  by rewrite (analyze_classify _ _ _ _ Ht Hh Hv Hne).
Qed.

(** C8, as the code has it. With no history, or an empty one, a reading
    whose pm25 is absent or coerces to a number is classified "stable",
    anomaly false, confidence 0.8; a reading whose pm25 does not coerce
    gets the record "analysis_error". *)
Theorem analyze_without_history (datapoint : pydict) :
  (forall today_pm,
     py_float (dict_get_or datapoint "pm25" (PInt 0)) = Ok today_pm ->
     AnalysisAgent.analyze datapoint None
       = Ok {[ "trend" := PStr "stable"; "anomaly" := PBool false;
               "confidence" := PFloat 0.8 ]} /\
     AnalysisAgent.analyze datapoint (Some [])
       = Ok {[ "trend" := PStr "stable"; "anomaly" := PBool false;
               "confidence" := PFloat 0.8 ]}) /\
  (datapoint !! "pm25" = None ->
     AnalysisAgent.analyze datapoint None
       = Ok {[ "trend" := PStr "stable"; "anomaly" := PBool false;
               "confidence" := PFloat 0.8 ]}) /\
  (forall e recent_series,
     py_float (dict_get_or datapoint "pm25" (PInt 0)) = Raise e ->
     AnalysisAgent.analyze datapoint recent_series
       = Ok {[ "error" := PStr "analysis_error" ]}).
Proof.
  split; [|split].
  - intros today_pm Ht.
    unfold AnalysisAgent.analyze, AnalysisAgent.analyze_body.
    by rewrite Ht.
  - intros Hnone.
    unfold AnalysisAgent.analyze, AnalysisAgent.analyze_body, dict_get_or.
    rewrite Hnone. change (default (PInt 0) None) with (PInt 0).
    by rewrite float_of_zero.
  - intros e recent_series. apply analyze_error.
Qed.
End Analysis.

Lemma analyze_trend_witness :
  AnalysisAgent.analyze (Sample.reading (PFloat 86.0)) (Some Sample.history)
    = Ok {[ "trend" := PStr "rising"; "anomaly" := PBool true;
            "confidence" := PFloat 0.9 ]} /\
  AnalysisAgent.analyze (Sample.reading (PFloat 40.0)) (Some Sample.history)
    = Ok {[ "trend" := PStr "falling"; "anomaly" := PBool false;
            "confidence" := PFloat 0.9 ]} /\
  AnalysisAgent.analyze (Sample.reading (PStr "70")) (Some Sample.history)
    = Ok {[ "trend" := PStr "stable"; "anomaly" := PBool false;
            "confidence" := PFloat 0.9 ]}.
Proof.
  split; [|split].
  - refine (proj1 (analyze_trend (Sample.reading (PFloat 86.0))
                     Sample.history 86.0 65.0 [60.0; 70.0] _ _ _ _ _ _) _);
      try discriminate; vm_compute; reflexivity.
  - refine (proj1 (proj2 (analyze_trend (Sample.reading (PFloat 40.0))
                     Sample.history 40.0 65.0 [60.0; 70.0] _ _ _ _ _ _)) _);
      try discriminate; vm_compute; reflexivity.
  - refine (proj2 (proj2 (analyze_trend (Sample.reading (PStr "70"))
                     Sample.history 70.0 65.0 [60.0; 70.0] _ _ _ _ _ _)) _ _);
      try discriminate; vm_compute; reflexivity.
Defined.

Lemma mean_over_used_vals_witness :
  AnalysisAgent.past_vals Sample.gap_history = Ok [60.0; 0.0] /\
  AnalysisAgent.mean [60.0; 0.0] = TrendSpec.arithmetic_mean [60.0; 0.0] /\
  AnalysisAgent.analyze (Sample.reading (PFloat 60.0)) (Some Sample.gap_history) =
    Ok (if 0.0 <? TrendSpec.arithmetic_mean [60.0; 0.0]
        then AnalysisAgent.classify AnalysisAgent.default_result 60.0
               (TrendSpec.arithmetic_mean [60.0; 0.0])
        else AnalysisAgent.default_result).
Proof.
  apply (mean_over_used_vals (Sample.reading (PFloat 60.0)) Sample.gap_history
           60.0 [60.0; 0.0]).
  - vm_compute; reflexivity.
  - discriminate.
  - vm_compute; reflexivity.
  - discriminate.
Defined.

(** C5 as stated fails on a history with a row without pm25: the
    specification's mean is over [60.0] alone, the code's is over
    [60.0; 0.0], which is 30.0, and a reading of 60.0 is classified
    "rising" where the specification's mean gives "stable". *)
Lemma mean_skips_absent_counterexample :
  AnalysisAgent.past_vals Sample.gap_history
    <> TrendSpec.claimed_vals Sample.gap_history /\
  TrendSpec.claimed_vals Sample.gap_history = Ok [60.0] /\
  AnalysisAgent.past_vals Sample.gap_history = Ok [60.0; 0.0] /\
  TrendSpec.arithmetic_mean [60.0] = 60.0 /\
  AnalysisAgent.mean [60.0; 0.0] = 30.0 /\
  AnalysisAgent.analyze (Sample.reading (PFloat 60.0)) (Some Sample.gap_history)
    = Ok {[ "trend" := PStr "rising"; "anomaly" := PBool true;
            "confidence" := PFloat 0.9 ]} /\
  AnalysisAgent.classify AnalysisAgent.default_result 60.0
      (TrendSpec.arithmetic_mean [60.0])
    = {[ "trend" := PStr "stable"; "anomaly" := PBool false;
         "confidence" := PFloat 0.9 ]}.
Proof.
  split; [|repeat split; vm_compute; reflexivity].
  assert (AnalysisAgent.past_vals Sample.gap_history = Ok [60.0; 0.0]) as ->
    by (vm_compute; reflexivity).
  assert (TrendSpec.claimed_vals Sample.gap_history = Ok [60.0]) as ->
    by (vm_compute; reflexivity).
  discriminate.
Qed.

Lemma analyze_without_history_witness :
  AnalysisAgent.analyze (Sample.reading (PFloat 86.0)) None
    = Ok {[ "trend" := PStr "stable"; "anomaly" := PBool false;
            "confidence" := PFloat 0.8 ]} /\
  AnalysisAgent.analyze (Sample.reading (PFloat 86.0)) (Some [])
    = Ok {[ "trend" := PStr "stable"; "anomaly" := PBool false;
            "confidence" := PFloat 0.8 ]}.
Proof.
  apply (proj1 (analyze_without_history (Sample.reading (PFloat 86.0))) 86.0).
  vm_compute; reflexivity.
Defined.

(** C8 as stated fails on a reading whose pm25 is not a number: with no
    history the classifier returns the record "analysis_error", not
    "stable". *)
Lemma analyze_without_history_counterexample :
  AnalysisAgent.analyze (Sample.reading (PStr "n/a")) None
    = Ok {[ "error" := PStr "analysis_error" ]} /\
  AnalysisAgent.analyze (Sample.reading (PStr "n/a")) None
    <> Ok {[ "trend" := PStr "stable"; "anomaly" := PBool false;
             "confidence" := PFloat 0.8 ]}.
Proof.
  split; [vm_compute; reflexivity|].
  intros Heq.
  apply (f_equal (fun r : result pydict =>
                    match r with
                    | Ok d => d !! "trend"
                    | Raise _ => None
                    end)) in Heq.
  by vm_compute in Heq.
Qed.

(* ===================================================================== *)
(** ** The explanation formatter                                          *)
(* ===================================================================== *)

Lemma append_inj_l (t a b : string) : t +:+ a = t +:+ b -> a = b.
Proof.
  induction t as [|c t IH]; simpl; [done|].
  intros Heq. injection Heq as Heq. by apply IH.
Qed.

(** A float above 100 is not zero, hence true as a condition. *)
Lemma above_100_nonzero (f : float) : (100.0 <? f) = true -> (f =? 0.0) = false.
Proof.
  rewrite FloatAxioms.ltb_spec, FloatAxioms.eqb_spec.
  destruct (Prim2SF f) as [sg|sg| |sg m e]; try destruct sg;
    vm_compute; done.
Qed.

Section Explanation.
Context `{PyBuiltins}.

(** A value that converts to a float above 100 is true as a condition. *)
Lemma above_100_truthy (v : pyval) (f : float) :
  py_float v = Ok f -> (100.0 <? f) = true -> truthy v = true.
Proof.
  destruct v as [ |b|z|g|s]; simpl; intros Hf Hgt.
  - done.
  - destruct b; [done|]. injection Hf as <-. by vm_compute in Hgt.
  - destruct z; [|done|done]. vm_compute in Hf. injection Hf as <-.
    by vm_compute in Hgt.
  - injection Hf as ->. by rewrite above_100_nonzero.
  - destruct s; [|done]. by rewrite str_to_float_empty in Hf.
Qed.

(** On a pm25 that is false as a condition, the test is false without a
    call to [float], and the "moderate" text follows the template. *)
Lemma explain_falsy (datapoint analysis : pydict) :
  truthy (dict_get datapoint "pm25") = false ->
  ExplanationAgent.is_poor (dict_get datapoint "pm25") = Ok false /\
  ExplanationAgent.explain datapoint analysis
    = {[ "summary" :=
           PStr (ExplanationAgent.template (dict_get datapoint "pm25")
                   (dict_get analysis "trend") +:+ moderate_text);
         "confidence" := dict_get_or analysis "confidence" (PFloat 0.7) ]}.
Proof.
  intros Hfalsy. unfold ExplanationAgent.explain, ExplanationAgent.is_poor.
  by rewrite Hfalsy.
Qed.

(** C6. The summary is the template "Current PM2.5 is {pm25} µg/m3.
    Trend: {trend}. " followed by the "poor" text when pm25 converts to
    a number above 100, by the "moderate" text when pm25 is false as a
    condition or converts to a number not above 100, and by "Unable to
    fully assess air quality." when the conversion is tried and fails.
    The confidence is that of the analysis, 0.7 when it has none. *)
Theorem explain_summary (datapoint analysis : pydict) :
  (forall f,
     py_float (dict_get datapoint "pm25") = Ok f -> (100.0 <? f) = true ->
     ExplanationAgent.explain datapoint analysis
       = {[ "summary" :=
              PStr (ExplanationAgent.template (dict_get datapoint "pm25")
                      (dict_get analysis "trend") +:+ poor_text);
            "confidence" := dict_get_or analysis "confidence" (PFloat 0.7) ]}) /\
  (truthy (dict_get datapoint "pm25") = false \/
   (exists f, py_float (dict_get datapoint "pm25") = Ok f /\
              (100.0 <? f) = false) ->
     ExplanationAgent.explain datapoint analysis
       = {[ "summary" :=
              PStr (ExplanationAgent.template (dict_get datapoint "pm25")
                      (dict_get analysis "trend") +:+ moderate_text);
            "confidence" := dict_get_or analysis "confidence" (PFloat 0.7) ]}) /\
  (forall e,
     truthy (dict_get datapoint "pm25") = true ->
     py_float (dict_get datapoint "pm25") = Raise e ->
     ExplanationAgent.explain datapoint analysis
       = {[ "summary" :=
              PStr (ExplanationAgent.template (dict_get datapoint "pm25")
                      (dict_get analysis "trend") +:+ unable_text);
            "confidence" := dict_get_or analysis "confidence" (PFloat 0.7) ]}) /\
  (analysis !! "confidence" = None ->
     ExplanationAgent.explain datapoint analysis !! "confidence"
       = Some (PFloat 0.7)) /\
  (forall c, analysis !! "confidence" = Some c ->
     ExplanationAgent.explain datapoint analysis !! "confidence" = Some c).
Proof.
  unfold ExplanationAgent.explain, ExplanationAgent.is_poor.
  split; [|split; [|split; [|split]]].
  - intros f Hf Hgt. rewrite (above_100_truthy _ _ Hf Hgt), Hf. simpl.
    by rewrite Hgt.
  - intros [Hfalsy|[f [Hf Hle]]].
    + apply (explain_falsy datapoint analysis Hfalsy).
    + rewrite Hf. simpl. rewrite Hle. by destruct (truthy _).
  - intros e Htruthy He. by rewrite Htruthy, He.
  - intros Hc. unfold dict_get_or. rewrite Hc. by vm_compute.
  - intros c Hc. unfold dict_get_or. rewrite Hc. by vm_compute.
Qed.
(** C9. When the pm25 of the reading is absent, [None], 0 or the empty
    string, no conversion is tried: the test is false whatever [float]
    would do (on [None] and on the empty string it would raise), and the
    summary is the template followed by the "moderate" text, not by
    "Unable to fully assess air quality.". *)
Theorem explain_falsy_pm25 (datapoint analysis : pydict) :
  datapoint !! "pm25" = None \/ datapoint !! "pm25" = Some PNone \/
  datapoint !! "pm25" = Some (PInt 0) \/
  datapoint !! "pm25" = Some (PStr "") ->
  ExplanationAgent.is_poor (dict_get datapoint "pm25") = Ok false /\
  (datapoint !! "pm25" <> Some (PInt 0) ->
     exists e, py_float (dict_get datapoint "pm25") = Raise e) /\
  exists summary,
    ExplanationAgent.explain datapoint analysis !! "summary"
      = Some (PStr summary) /\
    summary = ExplanationAgent.template (dict_get datapoint "pm25")
                (dict_get analysis "trend") +:+ moderate_text /\
    str_in moderate_text summary = true /\
    summary <> ExplanationAgent.template (dict_get datapoint "pm25")
                 (dict_get analysis "trend") +:+ unable_text.
Proof.
  intros Hpm.
  assert (truthy (dict_get datapoint "pm25") = false) as Hfalsy.
  { unfold dict_get. by destruct Hpm as [->|[->|[->| ->]]]. }
  split; [|split].
  - apply (explain_falsy datapoint analysis Hfalsy).
  - intros Hnz. unfold dict_get.
    destruct Hpm as [Hp|[Hp|[Hp|Hp]]]; rewrite Hp; simpl;
      [by eexists|by eexists|congruence|].
    rewrite str_to_float_empty. by eexists.
  - eexists. split; [|split; [done|split]].
    + rewrite (proj2 (explain_falsy datapoint analysis Hfalsy)).
      by vm_compute.
    + apply str_in_app_r, str_in_refl.
    + intros Heq. by apply append_inj_l in Heq.
Qed.
End Explanation.

Lemma explain_summary_witness :
  ExplanationAgent.explain (Sample.reading (PFloat 150.0))
      {[ "trend" := PStr "rising"; "anomaly" := PBool true;
         "confidence" := PFloat 0.9 ]}
    = {[ "summary" := PStr Sample.poor_summary;
         "confidence" := PFloat 0.9 ]} /\
  ExplanationAgent.explain (Sample.reading (PFloat 50.0))
      {[ "trend" := PStr "stable"; "anomaly" := PBool false ]}
    = {[ "summary" := PStr Sample.moderate_summary;
         "confidence" := PFloat 0.7 ]} /\
  ExplanationAgent.explain (Sample.reading (PStr "n/a"))
      {[ "error" := PStr "analysis_error" ]}
    = {[ "summary" := PStr "Current PM2.5 is n/a µg/m3. Trend: None. Unable to fully assess air quality.";
         "confidence" := PFloat 0.7 ]}.
Proof.
  split; [|split].
  - rewrite (proj1 (explain_summary (Sample.reading (PFloat 150.0)) _) 150.0);
      vm_compute; reflexivity.
  - rewrite (proj1 (proj2 (explain_summary (Sample.reading (PFloat 50.0)) _)));
      [vm_compute; reflexivity|].
    right. exists 50.0. split; vm_compute; reflexivity.
  - rewrite (proj1 (proj2 (proj2
               (explain_summary (Sample.reading (PStr "n/a")) _))) ValueError);
      vm_compute; reflexivity.
Defined.

Lemma explain_falsy_pm25_witness :
  ExplanationAgent.is_poor (dict_get (Sample.reading PNone) "pm25") = Ok false /\
  exists summary,
    ExplanationAgent.explain (Sample.reading PNone)
        {[ "error" := PStr "analysis_error" ]} !! "summary"
      = Some (PStr summary) /\
    summary = "Current PM2.5 is None µg/m3. Trend: None. Air quality is moderate; normal activities are OK.".
Proof.
  destruct (explain_falsy_pm25 (Sample.reading PNone)
              {[ "error" := PStr "analysis_error" ]})
    as [Hpoor [_ [summary [Hs [Heq _]]]]].
  - right; left. vm_compute; reflexivity.
  - split; [exact Hpoor|]. exists summary. split; [exact Hs|].
    rewrite Heq. vm_compute; reflexivity.
Defined.

(* ===================================================================== *)
(** ** The advisory generator                                             *)
(* ===================================================================== *)

(** [user_prefs and user_prefs.get("asthma")] is the asthma flag: empty
    preferences have no "asthma" entry. *)
Lemma prefs_test_flag (prefs : pydict) :
  dict_truthy prefs && truthy (dict_get prefs "asthma")
  = truthy (dict_get prefs "asthma").
Proof.
  unfold dict_truthy. destruct (size prefs) eqn:Hsz; [|done].
  apply map_size_empty_iff in Hsz. by subst prefs.
Qed.

Section Advice.
Context `{PyBuiltins}.

Lemma mentions_poor_str (s : string) :
  AdvisoryAgent.mentions_poor (PStr s)
  = Ok (str_in "poor" (lower s) || str_in "avoid" (lower s)).
Proof.
  unfold AdvisoryAgent.mentions_poor. simpl.
  by destruct (str_in "poor" (lower s)).
Qed.

(** C7. On an explanation whose summary is the string [s], the advice is
    the two outdoor warnings when [s] contains "poor" or "avoid" in any
    case, and the one positive message otherwise, followed by the inhaler
    warning exactly when the asthma flag is set. A "poor" explanation with
    the flag set gives three items, the inhaler warning last. *)
Theorem advise_spec (explanation : pydict) (user_prefs : option pydict)
    (s : string) :
  dict_get_or explanation "summary" (PStr "") = PStr s ->
  AdvisoryAgent.advise explanation user_prefs =
    Ok {[ "advice" :=
            ((if str_in "poor" (lower s) || str_in "avoid" (lower s)
              then [ "Avoid outdoor exercise today.";
                     "Use N95 mask if you must go out." ]
              else [ "Good day for outdoor activities." ])
             ++ (if asthma_flag user_prefs
                 then [ "Carry inhaler and avoid crowded roads." ]
                 else []))%list ]} /\
  (str_in "poor" (lower s) = true -> asthma_flag user_prefs = true ->
     exists advice,
       AdvisoryAgent.advise explanation user_prefs
         = Ok {[ "advice" := advice ]} /\
       length advice = 3%nat /\
       last advice = Some "Carry inhaler and avoid crowded roads.").
Proof.
  intros Hs.
  assert (AdvisoryAgent.advise explanation user_prefs =
    Ok {[ "advice" :=
            ((if str_in "poor" (lower s) || str_in "avoid" (lower s)
              then [ "Avoid outdoor exercise today.";
                     "Use N95 mask if you must go out." ]
              else [ "Good day for outdoor activities." ])
             ++ (if asthma_flag user_prefs
                 then [ "Carry inhaler and avoid crowded roads." ]
                 else []))%list ]}) as Hadv.
  { unfold AdvisoryAgent.advise. rewrite Hs, mentions_poor_str.
    cbn [mbind result_bind].
    assert (match user_prefs with
            | Some prefs => dict_truthy prefs && truthy (dict_get prefs "asthma")
            | None => false
            end = asthma_flag user_prefs) as ->.
    { destruct user_prefs as [prefs|]; [apply prefs_test_flag|done]. }
    destruct (str_in "poor" (lower s) || str_in "avoid" (lower s));
      destruct (asthma_flag user_prefs); reflexivity. }
  split; [exact Hadv|].
  intros Hpoor Hflag. eexists. split; [exact Hadv|].
  rewrite Hpoor, Hflag. by split.
Qed.
End Advice.

Lemma advise_spec_witness :
  AdvisoryAgent.advise Sample.poor_explanation (Some (Sample.preferences true))
    = Ok {[ "advice" := [ "Avoid outdoor exercise today.";
                          "Use N95 mask if you must go out.";
                          "Carry inhaler and avoid crowded roads." ] ]} /\
  AdvisoryAgent.advise Sample.moderate_explanation
      (Some (Sample.preferences false))
    = Ok {[ "advice" := [ "Good day for outdoor activities." ] ]}.
Proof.
  split.
  - destruct (advise_spec Sample.poor_explanation
                (Some (Sample.preferences true)) Sample.poor_summary)
      as [Hadv _]; [vm_compute; reflexivity|].
    rewrite Hadv. vm_compute; reflexivity.
  - destruct (advise_spec Sample.moderate_explanation
                (Some (Sample.preferences false)) Sample.moderate_summary)
      as [Hadv _]; [vm_compute; reflexivity|].
    rewrite Hadv. vm_compute; reflexivity.
Defined.

(* ===================================================================== *)
(** ** Further properties: the data fetch                                 *)
(* ===================================================================== *)

Section FetchMore.
Context `{PyBuiltins}.

(** The parser has three possible results. *)
Lemma parse_search_snippet_range (snippet : pyval) :
  parse_search_snippet snippet = ∅ \/
  parse_search_snippet snippet =
    {[ "pm25" := PFloat 86.0; "pm10" := PFloat 150.0; "aqi" := PInt 128 ]} \/
  parse_search_snippet snippet =
    {[ "pm25" := PFloat 55.0; "pm10" := PFloat 90.0; "aqi" := PInt 80 ]}.
Proof.
  destruct snippet as [ |b|z|f|text]; try (by left).
  rewrite parse_search_snippet_str.
  destruct (str_in "pm2.5" (lower text)); [|by left].
  destruct (str_in "86" text); [right; by left|right; by right].
Qed.

(** What [fetch] returns is the record "no data available" or a reading
    with all five fields. *)
Lemma fetch_shape (self : Agent) (now location : string) (d : pydict) :
  DataAgent.fetch self now location = Ok d ->
  d = {[ "error" := PStr "no data available" ]} \/
  exists pm25 pm10 aqi ts src,
    d = {[ "pm25" := PFloat pm25; "pm10" := PFloat pm10; "aqi" := PInt aqi;
           "timestamp" := ts; "source" := PStr src ]} /\
    (src = "google_search" \/ src = "sample_csv").
Proof.
  unfold DataAgent.fetch, try_except.
  destruct (DataAgent.fetch_search self now location) as [d'|e] eqn:Hs.
  - intros [= <-]. right. unfold DataAgent.fetch_search in Hs.
    destruct (call_tool self "google_search" _) as [res|]; [|done].
    cbn [mbind result_bind] in Hs.
    destruct (parse_search_snippet_range
                (dict_get_or res "result_snippet" (PStr "")))
      as [Hp|[Hp|Hp]]; rewrite Hp in Hs.
    + by vm_compute in Hs.
    + exists 86.0, 150.0, 128%Z,
        (if truthy (dict_get res "timestamp")
         then dict_get res "timestamp" else PStr now), "google_search".
      split; [|by left].
      change (dict_truthy _) with true in Hs. injection Hs as <-.
      by vm_compute.
    + exists 55.0, 90.0, 80%Z,
        (if truthy (dict_get res "timestamp")
         then dict_get res "timestamp" else PStr now), "google_search".
      split; [|by left].
      change (dict_truthy _) with true in Hs. injection Hs as <-.
      by vm_compute.
  - unfold DataAgent.fetch_csv.
    destruct (call_tool self "csv_loader" location) as [csv_res|]; [|done].
    cbn [mbind result_bind].
    destruct (truthy (dict_get csv_res "error")).
    + intros [= <-]. by left.
    + destruct (dict_item csv_res "pm25" ≫= py_float) as [pm25|];
        cbn [mbind result_bind]; [|done].
      destruct (dict_item csv_res "pm10" ≫= py_float) as [pm10|];
        cbn [mbind result_bind]; [|done].
      destruct (py_int _) as [aqi|]; cbn [mbind result_bind]; [|done].
      intros [= <-]. right.
      exists pm25, pm10, aqi, (dict_get csv_res "date"), "sample_csv".
      split; [done|by right].
Qed.

(** X1. With the stub of [src/tools.py] registered as "google_search",
    [fetch] returns the reading pm25 = 86.0, pm10 = 150.0, aqi = 128 of
    source "google_search" for every location, stamped by the stub's
    clock; the CSV loader is not consulted, registered or not. *)
Theorem fetch_stub_never_falls_back (self : Agent)
    (now stamp location : string) :
  tools self !! "google_search" = Some (GoogleSearchTool.run stamp) ->
  DataAgent.fetch self now location
    = Ok {[ "pm25" := PFloat 86.0; "pm10" := PFloat 150.0; "aqi" := PInt 128;
            "source" := PStr "google_search";
            "timestamp" := PStr (if String.eqb stamp "" then now else stamp) ]} /\
  ~ search_fails self location.
Proof.
  intros Htool. pose proof (fetch_with_stub self now stamp location Htool)
    as Hfetch.
  split; [exact Hfetch|]. intros Hfails.
  destruct (fetch_search_fails self now location Hfails) as [e He].
  unfold DataAgent.fetch in Hfetch. rewrite He in Hfetch.
  cbn [try_except] in Hfetch.
  unfold DataAgent.fetch_search, call_tool in He. rewrite Htool in He.
  unfold GoogleSearchTool.run in He.
  destruct (split (location +:+ " AQI today")) as [|tok rest] eqn:Hsplit.
  { apply split_nil_iff in Hsplit.
    by rewrite query_not_all_space in Hsplit. }
  cbn [mbind result_bind] in He.
  destruct (parse_search_snippet_range
              (dict_get_or
                 ({[ "query" := PStr (location +:+ " AQI today");
                     "timestamp" := PStr stamp;
                     "result_snippet" :=
                       PStr ("AQI " +:+ tok +:+ GoogleSearchTool.snippet_tail);
                     "raw_html" := PStr "<html>...</html>" ]} : pydict)
                 "result_snippet" (PStr ""))) as [Hp|[Hp|Hp]];
    rewrite Hp in He; try (by vm_compute in He).
  assert (dict_get_or
            ({[ "query" := PStr (location +:+ " AQI today");
                "timestamp" := PStr stamp;
                "result_snippet" :=
                  PStr ("AQI " +:+ tok +:+ GoogleSearchTool.snippet_tail);
                "raw_html" := PStr "<html>...</html>" ]} : pydict)
            "result_snippet" (PStr "")
          = PStr ("AQI " +:+ tok +:+ GoogleSearchTool.snippet_tail)) as Hget
    by (by vm_compute).
  rewrite Hget, parse_search_snippet_str in Hp.
  assert (str_in "pm2.5"
            (lower ("AQI " +:+ tok +:+ GoogleSearchTool.snippet_tail))
          = true) as Hpm
    by (apply (lower_ascii_part "PM2.5"); [done|];
        by do 2 apply str_in_app_r).
  rewrite Hpm in Hp.
  destruct (str_in "86" _); apply (f_equal (fun d : pydict => d !! "pm25")) in Hp;
    by vm_compute in Hp.
Qed.

(** X2. Whatever the tools are, a dictionary that [fetch] returns is the
    record "no data available" or a reading with float pm25 and pm10, an
    integer aqi, a timestamp and a source that is "google_search" or
    "sample_csv". *)
Theorem fetch_returns_reading (self : Agent) (now location : string)
    (d : pydict) :
  DataAgent.fetch self now location = Ok d ->
  (d = {[ "error" := PStr "no data available" ]} /\ is_error_record d = true)
  \/
  (is_error_record d = false /\
   exists pm25 pm10 aqi ts src,
     d = {[ "pm25" := PFloat pm25; "pm10" := PFloat pm10; "aqi" := PInt aqi;
            "timestamp" := ts; "source" := PStr src ]} /\
     (src = "google_search" \/ src = "sample_csv")).
Proof.
  intros Hfetch.
  destruct (fetch_shape self now location d Hfetch)
    as [->|(pm25 & pm10 & aqi & ts & src & -> & Hsrc)].
  - left. split; [done|by vm_compute].
  - right. split; [by vm_compute|]. by exists pm25, pm10, aqi, ts, src.
Qed.

(** X3. The classifier never fails on what [fetch] returns: with no
    history, or an empty one, every returned dictionary, the error record
    included, is classified "stable" with confidence 0.8. *)
Theorem analyze_after_fetch (self : Agent) (now location : string)
    (d : pydict) :
  DataAgent.fetch self now location = Ok d ->
  AnalysisAgent.analyze d None
    = Ok {[ "trend" := PStr "stable"; "anomaly" := PBool false;
            "confidence" := PFloat 0.8 ]} /\
  AnalysisAgent.analyze d (Some [])
    = Ok {[ "trend" := PStr "stable"; "anomaly" := PBool false;
            "confidence" := PFloat 0.8 ]}.
Proof.
  intros Hfetch.
  assert (exists today_pm,
            py_float (dict_get_or d "pm25" (PInt 0)) = Ok today_pm)
    as [today_pm Ht].
  { destruct (fetch_shape self now location d Hfetch)
      as [->|(pm25 & pm10 & aqi & ts & src & -> & _)].
    - exists 0.0. by vm_compute.
    - exists pm25. by vm_compute. }
  unfold AnalysisAgent.analyze, AnalysisAgent.analyze_body.
  by rewrite Ht.
Qed.

(** X4. A search tool that is not registered counts as a failed search:
    [fetch] goes on with the CSV loader. When the search fails and no CSV
    loader is registered, [fetch] raises [RuntimeError]. *)
Theorem fetch_missing_tools (self : Agent) (now location : string) :
  (tools self !! "google_search" = None ->
     search_fails self location /\
     DataAgent.fetch self now location = DataAgent.fetch_csv self location) /\
  (search_fails self location -> tools self !! "csv_loader" = None ->
     DataAgent.fetch self now location = Raise RuntimeError).
Proof.
  split.
  - intros Hnone.
    assert (search_fails self location) as Hfails.
    { left. exists RuntimeError. unfold call_tool, tool in *.
      by rewrite Hnone. }
    split; [done|]. by apply fetch_falls_back.
  - intros Hfails Hnone. rewrite (fetch_falls_back _ _ _ Hfails).
    unfold DataAgent.fetch_csv, call_tool, tool in *. by rewrite Hnone.
Qed.

(** The lookup on a file with a location column, by the last match. *)
Lemma csv_run_last_match (csv_path location : string) (rows : list pydict) :
  Forall CsvSpec.has_location rows ->
  CSVLoaderTool.run csv_path (Rows rows) location =
    Ok (match CsvSpec.last_match location rows with
        | Some row => row
        | None => {[ "error" := PStr "no data for location" ]}
        end).
Proof.
  intros Hloc. unfold CSVLoaderTool.run.
  rewrite (scan_last_match _ _ _ Hloc). cbn [mbind result_bind].
  destruct (CsvSpec.last_match location rows) as [row|] eqn:Hlast; [|done].
  assert (CsvSpec.has_location row) as [s Hs].
  { unfold CsvSpec.last_match in Hlast. apply last_Some_elem_of in Hlast.
    apply list_elem_of_In, filter_In in Hlast as [Hin _].
    rewrite Forall_forall in Hloc. apply Hloc. by apply list_elem_of_In. }
  by rewrite (dict_truthy_lookup _ _ _ Hs).
Qed.

(** X5. The fallback with the CSV loader of [src/tools.py]: when the
    search fails, [fetch] returns the record "no data available" if the
    file is missing, and raises what [open] or the reader raises on a file
    that cannot be read. On a file with a location column it returns the
    record "no data available" if no row matches the location or if the
    last matching row has a true "error" field; otherwise it returns the
    coerced fields of the last matching row. *)
Theorem fetch_csv_lookup (self : Agent) (now location csv_path : string)
    (file : csv_file) :
  search_fails self location ->
  tools self !! "csv_loader" = Some (CSVLoaderTool.run csv_path file) ->
  (file = Missing ->
     DataAgent.fetch self now location
       = Ok {[ "error" := PStr "no data available" ]}) /\
  (forall e, file = Unreadable e -> DataAgent.fetch self now location = Raise e) /\
  (forall rows,
     file = Rows rows -> Forall CsvSpec.has_location rows ->
     CsvSpec.last_match location rows = None ->
     DataAgent.fetch self now location
       = Ok {[ "error" := PStr "no data available" ]}) /\
  (forall rows row,
     file = Rows rows -> Forall CsvSpec.has_location rows ->
     CsvSpec.last_match location rows = Some row ->
     (is_error_record row = true ->
        DataAgent.fetch self now location
          = Ok {[ "error" := PStr "no data available" ]}) /\
     (is_error_record row = false ->
      forall pm25 pm10 aqi,
        coercions row = Ok (pm25, pm10, aqi) ->
        DataAgent.fetch self now location
          = Ok {[ "pm25" := PFloat pm25; "pm10" := PFloat pm10;
                  "aqi" := PInt aqi; "timestamp" := dict_get row "date";
                  "source" := PStr "sample_csv" ]})).
Proof.
  intros Hfails Htool. rewrite (fetch_falls_back _ _ _ Hfails).
  unfold DataAgent.fetch_csv, call_tool. rewrite Htool.
  split; [|split; [|split]].
  - intros ->. by vm_compute.
  - by intros e ->.
  - intros rows -> Hloc Hlast. rewrite (csv_run_last_match _ _ _ Hloc), Hlast.
    by vm_compute.
  - intros rows row -> Hloc Hlast.
    rewrite (csv_run_last_match _ _ _ Hloc), Hlast.
    cbn [mbind result_bind]. unfold is_error_record, coercions. split.
    + by intros ->.
    + intros -> pm25 pm10 aqi Hco.
      destruct (dict_item row "pm25" ≫= py_float) as [p25|];
        simpl in *; try done.
      destruct (dict_item row "pm10" ≫= py_float) as [p10|];
        simpl in *; try done.
      destruct (py_int _) as [a|]; simpl in *; try done.
      by injection Hco as -> -> ->.
Qed.
End FetchMore.

Lemma fetch_stub_never_falls_back_witness :
  DataAgent.fetch (Sample.agent (GoogleSearchTool.run Sample.now) Missing)
      "2025-11-30T06:00:05" "Delhi"
    = Ok {[ "pm25" := PFloat 86.0; "pm10" := PFloat 150.0; "aqi" := PInt 128;
            "source" := PStr "google_search";
            "timestamp" := PStr Sample.now ]}.
Proof.
  refine (proj1 (fetch_stub_never_falls_back
                   (Sample.agent (GoogleSearchTool.run Sample.now) Missing)
                   "2025-11-30T06:00:05" Sample.now "Delhi" _)).
  apply lookup_insert_eq.
Defined.

Lemma fetch_returns_reading_witness :
  is_error_record (Sample.row "chennai" "70.0" "110.0" "102" "2025-11-02")
    = false /\
  DataAgent.fetch (Sample.agent Sample.no_result_search (Rows Sample.rows))
      Sample.now "Chennai"
    = Ok {[ "pm25" := PFloat 70.0; "pm10" := PFloat 110.0;
            "aqi" := PInt 102; "timestamp" := PStr "2025-11-02";
            "source" := PStr "sample_csv" ]} /\
  ({[ "pm25" := PFloat 70.0; "pm10" := PFloat 110.0;
      "aqi" := PInt 102; "timestamp" := PStr "2025-11-02";
      "source" := PStr "sample_csv" ]}
     = ({[ "error" := PStr "no data available" ]} : pydict) /\
   is_error_record
     {[ "pm25" := PFloat 70.0; "pm10" := PFloat 110.0;
        "aqi" := PInt 102; "timestamp" := PStr "2025-11-02";
        "source" := PStr "sample_csv" ]} = true
   \/
   is_error_record
     {[ "pm25" := PFloat 70.0; "pm10" := PFloat 110.0;
        "aqi" := PInt 102; "timestamp" := PStr "2025-11-02";
        "source" := PStr "sample_csv" ]} = false /\
   exists pm25 pm10 aqi ts src,
     ({[ "pm25" := PFloat 70.0; "pm10" := PFloat 110.0;
         "aqi" := PInt 102; "timestamp" := PStr "2025-11-02";
         "source" := PStr "sample_csv" ]} : pydict)
       = {[ "pm25" := PFloat pm25; "pm10" := PFloat pm10; "aqi" := PInt aqi;
            "timestamp" := ts; "source" := PStr src ]} /\
     (src = "google_search" \/ src = "sample_csv")).
Proof.
  assert (DataAgent.fetch
            (Sample.agent Sample.no_result_search (Rows Sample.rows))
            Sample.now "Chennai"
          = Ok {[ "pm25" := PFloat 70.0; "pm10" := PFloat 110.0;
                  "aqi" := PInt 102; "timestamp" := PStr "2025-11-02";
                  "source" := PStr "sample_csv" ]}) as Hfetch
    by (vm_compute; reflexivity).
  split; [vm_compute; reflexivity|]. split; [exact Hfetch|].
  exact (fetch_returns_reading _ _ _ _ Hfetch).
Defined.

Lemma analyze_after_fetch_witness :
  AnalysisAgent.analyze {[ "error" := PStr "no data available" ]} None
    = Ok {[ "trend" := PStr "stable"; "anomaly" := PBool false;
            "confidence" := PFloat 0.8 ]} /\
  AnalysisAgent.analyze {[ "error" := PStr "no data available" ]} (Some [])
    = Ok {[ "trend" := PStr "stable"; "anomaly" := PBool false;
            "confidence" := PFloat 0.8 ]}.
Proof.
  refine (analyze_after_fetch (Sample.agent Sample.no_result_search Missing)
            Sample.now "Chennai" _ _).
  vm_compute; reflexivity.
Defined.

Lemma fetch_missing_tools_witness :
  DataAgent.fetch Sample.bare_agent Sample.now "Chennai" = Raise RuntimeError.
Proof.
  destruct (fetch_missing_tools Sample.bare_agent Sample.now "Chennai")
    as [Hsearch Hcsv].
  apply Hcsv; [apply Hsearch|]; vm_compute; reflexivity.
Defined.

Lemma fetch_csv_lookup_witness :
  DataAgent.fetch (Sample.agent Sample.no_result_search (Rows Sample.rows))
      Sample.now "CHENNAI"
    = Ok {[ "pm25" := PFloat 70.0; "pm10" := PFloat 110.0;
            "aqi" := PInt 102; "timestamp" := PStr "2025-11-02";
            "source" := PStr "sample_csv" ]} /\
  DataAgent.fetch (Sample.agent Sample.no_result_search (Rows Sample.rows))
      Sample.now "Mumbai"
    = Ok {[ "error" := PStr "no data available" ]}.
Proof.
  assert (Forall CsvSpec.has_location Sample.rows) as Hloc.
  { repeat constructor; eexists; vm_compute; reflexivity. }
  split.
  - destruct (fetch_csv_lookup
                (Sample.agent Sample.no_result_search (Rows Sample.rows))
                Sample.now "CHENNAI" Sample.csv_path (Rows Sample.rows))
      as (_ & _ & _ & Hrow).
    + right. eexists. split; vm_compute; reflexivity.
    + vm_compute; reflexivity.
    + refine (proj2 (Hrow Sample.rows
                       (Sample.row "chennai" "70.0" "110.0" "102" "2025-11-02")
                       eq_refl Hloc _) _ 70.0 110.0 102%Z _);
        vm_compute; reflexivity.
  - destruct (fetch_csv_lookup
                (Sample.agent Sample.no_result_search (Rows Sample.rows))
                Sample.now "Mumbai" Sample.csv_path (Rows Sample.rows))
      as (_ & _ & Hnone & _).
    + right. eexists. split; vm_compute; reflexivity.
    + vm_compute; reflexivity.
    + apply (Hnone Sample.rows eq_refl Hloc). vm_compute; reflexivity.
Defined.

(* ===================================================================== *)
(** ** Further properties: the CSV lookup                                 *)
(* ===================================================================== *)

Section CsvLookupMore.
Context `{PyBuiltins}.

Lemma py_lower_location (row : pydict) :
  (location_ok row = true ->
     exists l, py_lower (dict_get_or row "location" (PStr "")) = Ok l) /\
  (location_ok row = false ->
     py_lower (dict_get_or row "location" (PStr "")) = Raise AttributeError).
Proof.
  unfold location_ok, dict_get_or.
  destruct (row !! "location") as [[ |b|z|f|s]|]; simpl; split; try done;
    intros _; by eexists.
Qed.

(** The loop raises exactly when some row has a location that is there
    and is not a string. *)
Lemma scan_raises (location : string) (reader : list pydict)
    (latest : option pydict) :
  (forallb location_ok reader = true ->
     exists r, CSVLoaderTool.scan location reader latest = Ok r) /\
  (forallb location_ok reader = false ->
     CSVLoaderTool.scan location reader latest = Raise AttributeError).
Proof.
  revert latest. induction reader as [|row rest IH]; intros latest.
  { split; [by eexists|done]. }
  cbn [forallb CSVLoaderTool.scan].
  destruct (py_lower_location row) as [Hok Hbad].
  destruct (location_ok row).
  - destruct (Hok eq_refl) as [l ->]. cbn [mbind result_bind andb].
    destruct (String.eqb l (lower location)); apply IH.
  - rewrite (Hbad eq_refl). by split.
Qed.

(** What the loop ends with is what it started with or a row of the
    file whose location, lower-cased, is the lower-cased query. *)
Lemma scan_from_reader (location : string) (reader : list pydict)
    (latest r : option pydict) :
  CSVLoaderTool.scan location reader latest = Ok r ->
  r = latest \/
  exists row,
    r = Some row /\ In row reader /\
    py_lower (dict_get_or row "location" (PStr "")) = Ok (lower location).
Proof.
  revert latest. induction reader as [|row rest IH]; intros latest.
  { intros [= <-]. by left. }
  cbn [CSVLoaderTool.scan].
  destruct (py_lower (dict_get_or row "location" (PStr ""))) as [l|] eqn:Hl;
    cbn [mbind result_bind]; [|done].
  destruct (String.eqb l (lower location)) eqn:Heq.
  - apply String.eqb_eq in Heq. subst l. intros Hscan.
    destruct (IH _ Hscan) as [->|(row' & -> & Hin & Hrow')]; right.
    + exists row. split; [done|]. split; [by left|done].
    + exists row'. split; [done|]. split; [by right|done].
  - intros Hscan.
    destruct (IH _ Hscan) as [->|(row' & -> & Hin & Hrow')]; [by left|right].
    exists row'. split; [done|]. split; [by right|done].
Qed.

Lemma scan_query_case (l1 l2 : string) (reader : list pydict)
    (latest : option pydict) :
  lower l1 = lower l2 ->
  CSVLoaderTool.scan l1 reader latest = CSVLoaderTool.scan l2 reader latest.
Proof.
  intros Hl. revert latest.
  induction reader as [|row rest IH]; intros latest; [done|].
  cbn [CSVLoaderTool.scan]. rewrite Hl.
  destruct (py_lower _) as [l|]; cbn [mbind result_bind]; [|done].
  destruct (String.eqb l (lower l2)); apply IH.
Qed.

(** X6. When the CSV lookup raises. On a file that [open] or the reader
    raises on, the lookup raises the same exception: nothing catches it.
    On a file that is read, it raises [AttributeError] exactly when some
    row has a location that is there and is not a string (a short row,
    whose missing fields are [None]), wherever that row is and whatever is
    asked. On every other file that is read, and when there is no file, it
    returns a dictionary. *)
Theorem csv_lookup_raises (csv_path location : string) (file : csv_file) :
  (forall e,
     file = Unreadable e ->
     CSVLoaderTool.run csv_path file location = Raise e) /\
  (forall rows,
     file = Rows rows -> forallb location_ok rows = false ->
     CSVLoaderTool.run csv_path file location = Raise AttributeError) /\
  (forall rows,
     file = Rows rows -> forallb location_ok rows = true ->
     exists d, CSVLoaderTool.run csv_path file location = Ok d) /\
  (file = Missing ->
     exists d, CSVLoaderTool.run csv_path file location = Ok d).
Proof.
  unfold CSVLoaderTool.run. split; [by intros e ->|].
  split; [|split; [|intros ->; by eexists]].
  - intros rows -> Hrows.
    by rewrite (proj2 (scan_raises location rows None) Hrows).
  - intros rows -> Hrows.
    destruct (proj1 (scan_raises location rows None) Hrows) as [r ->].
    cbn [mbind result_bind]. destruct r as [row|]; [|by eexists].
    destruct (dict_truthy row); by eexists.
Qed.

(** X7. The CSV lookup makes nothing up: a dictionary it returns for a
    file that exists is the record "no data for location" or a row of the
    file whose location, lower-cased, is the lower-cased query. *)
Theorem csv_lookup_from_file (csv_path location : string)
    (rows : list pydict) (d : pydict) :
  CSVLoaderTool.run csv_path (Rows rows) location = Ok d ->
  d = {[ "error" := PStr "no data for location" ]} \/
  (In d rows /\
   py_lower (dict_get_or d "location" (PStr "")) = Ok (lower location)).
Proof.
  unfold CSVLoaderTool.run.
  destruct (CSVLoaderTool.scan location rows None) as [r|] eqn:Hscan;
    cbn [mbind result_bind]; [|done].
  destruct (scan_from_reader _ _ _ _ Hscan) as [->|(row & -> & Hin & Hrow)].
  - intros [= <-]. by left.
  - destruct (dict_truthy row); intros [= <-]; [by right|by left].
Qed.

(** X8. The lookup sees the queried location only through its lower-case
    form: two queries that differ in case only get the same answer, on
    every file. *)
Theorem csv_lookup_query_case (csv_path l1 l2 : string)
    (file : csv_file) :
  lower l1 = lower l2 ->
  CSVLoaderTool.run csv_path file l1 = CSVLoaderTool.run csv_path file l2.
Proof.
  intros Hl. unfold CSVLoaderTool.run. destruct file as [|e|rows]; [done..|].
  by rewrite (scan_query_case l1 l2 rows None Hl).
Qed.
End CsvLookupMore.

Lemma csv_lookup_raises_witness :
  CSVLoaderTool.run Sample.csv_path (Unreadable UnicodeDecodeError) "Chennai"
    = Raise UnicodeDecodeError /\
  CSVLoaderTool.run Sample.csv_path (Rows Sample.short_rows) "Chennai"
    = Raise AttributeError /\
  (exists d,
     CSVLoaderTool.run Sample.csv_path (Rows Sample.rows) "Chennai" = Ok d) /\
  (exists d, CSVLoaderTool.run Sample.csv_path Missing "Chennai" = Ok d).
Proof.
  split; [|split; [|split]].
  - by apply (proj1 (csv_lookup_raises Sample.csv_path "Chennai"
                       (Unreadable UnicodeDecodeError))).
  - apply (proj1 (proj2 (csv_lookup_raises Sample.csv_path "Chennai"
                           (Rows Sample.short_rows))) Sample.short_rows);
      vm_compute; reflexivity.
  - apply (proj1 (proj2 (proj2 (csv_lookup_raises Sample.csv_path "Chennai"
                                  (Rows Sample.rows)))) Sample.rows);
      vm_compute; reflexivity.
  - by apply (proj2 (proj2 (proj2 (csv_lookup_raises Sample.csv_path "Chennai"
                                     Missing)))).
Defined.

Lemma csv_lookup_from_file_witness :
  Sample.row "chennai" "70.0" "110.0" "102" "2025-11-02"
    = {[ "error" := PStr "no data for location" ]} \/
  (In (Sample.row "chennai" "70.0" "110.0" "102" "2025-11-02") Sample.rows /\
   py_lower (dict_get_or
               (Sample.row "chennai" "70.0" "110.0" "102" "2025-11-02")
               "location" (PStr "")) = Ok (lower "Chennai")).
Proof.
  apply (csv_lookup_from_file Sample.csv_path "Chennai" Sample.rows).
  vm_compute; reflexivity.
Defined.

Lemma csv_lookup_query_case_witness :
  CSVLoaderTool.run Sample.csv_path (Rows Sample.rows) "CHENNAI"
    = CSVLoaderTool.run Sample.csv_path (Rows Sample.rows) "chennai".
Proof.
  apply csv_lookup_query_case. vm_compute; reflexivity.
Defined.

(* ===================================================================== *)
(** ** Further properties: the trend classifier                           *)
(* ===================================================================== *)

Section AnalysisMore.
Context `{PyBuiltins}.

(** The [try] block with the history read first: an empty history and a
    history without values come to the same. *)
Lemma analyze_body_vals (datapoint : pydict) (hist : list pydict) :
  AnalysisAgent.analyze_body datapoint (Some hist) =
    today_pm ← py_float (dict_get_or datapoint "pm25" (PInt 0));
    vals ← AnalysisAgent.past_vals hist;
    Ok (match vals with
        | [] => AnalysisAgent.default_result
        | _ :: _ =>
            if 0.0 <? AnalysisAgent.mean vals
            then AnalysisAgent.classify AnalysisAgent.default_result today_pm
                   (AnalysisAgent.mean vals)
            else AnalysisAgent.default_result
        end).
Proof.
  unfold AnalysisAgent.analyze_body.
  destruct (py_float _) as [today_pm|]; cbn [mbind result_bind]; [|done].
  destruct hist as [|x rest]; [done|].
  destruct (AnalysisAgent.past_vals (x :: rest)) as [[|v vals]|];
    cbn [mbind result_bind]; [done| |done].
  by destruct (0.0 <? AnalysisAgent.mean (v :: vals)).
Qed.

Lemma classify_range (today_pm past_avg : float) :
  AnalysisAgent.classify AnalysisAgent.default_result today_pm past_avg
    = {[ "trend" := PStr "rising"; "anomaly" := PBool true;
         "confidence" := PFloat 0.9 ]} \/
  AnalysisAgent.classify AnalysisAgent.default_result today_pm past_avg
    = {[ "trend" := PStr "falling"; "anomaly" := PBool false;
         "confidence" := PFloat 0.9 ]} \/
  AnalysisAgent.classify AnalysisAgent.default_result today_pm past_avg
    = {[ "trend" := PStr "stable"; "anomaly" := PBool false;
         "confidence" := PFloat 0.9 ]}.
Proof.
  unfold AnalysisAgent.classify, AnalysisAgent.default_result.
  destruct (past_avg * 1.3 <? today_pm); [left; by vm_compute|].
  destruct (today_pm <? past_avg * 0.8); right; [left|right]; by vm_compute.
Qed.

(** The analysis is one of five dictionaries. *)
Lemma analyze_cases (datapoint : pydict)
    (recent_series : option (list pydict)) :
  AnalysisAgent.analyze datapoint recent_series
    = Ok {[ "error" := PStr "analysis_error" ]} \/
  AnalysisAgent.analyze datapoint recent_series
    = Ok {[ "trend" := PStr "stable"; "anomaly" := PBool false;
            "confidence" := PFloat 0.8 ]} \/
  AnalysisAgent.analyze datapoint recent_series
    = Ok {[ "trend" := PStr "rising"; "anomaly" := PBool true;
            "confidence" := PFloat 0.9 ]} \/
  AnalysisAgent.analyze datapoint recent_series
    = Ok {[ "trend" := PStr "falling"; "anomaly" := PBool false;
            "confidence" := PFloat 0.9 ]} \/
  AnalysisAgent.analyze datapoint recent_series
    = Ok {[ "trend" := PStr "stable"; "anomaly" := PBool false;
            "confidence" := PFloat 0.9 ]}.
Proof.
  unfold AnalysisAgent.analyze.
  destruct recent_series as [hist|].
  - rewrite analyze_body_vals.
    destruct (py_float _) as [today_pm|]; cbn [mbind result_bind try_except];
      [|by left].
    destruct (AnalysisAgent.past_vals hist) as [[|v vals]|];
      cbn [mbind result_bind try_except]; [right; by left| |by left].
    destruct (0.0 <? AnalysisAgent.mean (v :: vals)); [|right; by left].
    destruct (classify_range today_pm (AnalysisAgent.mean (v :: vals)))
      as [->|[->| ->]]; right; right; [by left|right; by left|right; by right].
  - unfold AnalysisAgent.analyze_body.
    destruct (py_float _); [right; by left|by left].
Qed.

(** X9. [analyze] never raises and has five possible results: the record
    "analysis_error", the default (stable, no anomaly, 0.8), and the three
    classifications with confidence 0.9. So the anomaly flag is true only
    with the trend "rising", and a result with a trend always has a
    confidence. *)
Theorem analyze_range (datapoint : pydict)
    (recent_series : option (list pydict)) :
  exists d,
    AnalysisAgent.analyze datapoint recent_series = Ok d /\
    (d = {[ "error" := PStr "analysis_error" ]} \/
     d = {[ "trend" := PStr "stable"; "anomaly" := PBool false;
            "confidence" := PFloat 0.8 ]} \/
     d = {[ "trend" := PStr "rising"; "anomaly" := PBool true;
            "confidence" := PFloat 0.9 ]} \/
     d = {[ "trend" := PStr "falling"; "anomaly" := PBool false;
            "confidence" := PFloat 0.9 ]} \/
     d = {[ "trend" := PStr "stable"; "anomaly" := PBool false;
            "confidence" := PFloat 0.9 ]}) /\
    (d !! "anomaly" = Some (PBool true) ->
       d !! "trend" = Some (PStr "rising")).
Proof.
  destruct (analyze_cases datapoint recent_series)
    as [Ha|[Ha|[Ha|[Ha|Ha]]]]; rewrite Ha; eexists; (split; [done|]);
    (split; [tauto|]); by vm_compute.
Qed.

(** X10. A history is used only when its mean is positive: when the mean
    of the history values is zero, negative or not a number, the result is
    the default one, with confidence 0.8 and not 0.9, whatever today's
    reading is. *)
Theorem analyze_nonpositive_mean (datapoint : pydict) (hist : list pydict)
    (today_pm : float) (vals : list float) :
  py_float (dict_get_or datapoint "pm25" (PInt 0)) = Ok today_pm ->
  AnalysisAgent.past_vals hist = Ok vals ->
  (0.0 <? AnalysisAgent.mean vals) = false ->
  AnalysisAgent.analyze datapoint (Some hist)
    = Ok {[ "trend" := PStr "stable"; "anomaly" := PBool false;
            "confidence" := PFloat 0.8 ]}.
Proof.
  intros Ht Hv Hmean. unfold AnalysisAgent.analyze.
  rewrite analyze_body_vals, Ht. cbn [mbind result_bind].
  rewrite Hv. cbn [mbind result_bind try_except].
  destruct vals as [|v vals]; [done|]. by rewrite Hmean.
Qed.

Lemma past_vals_raises (hist : list pydict) (x : pydict) (e : exn) :
  In x hist ->
  TrendSpec.pm25_empty x = false ->
  TrendSpec.pm25_value x = Raise e ->
  exists e', AnalysisAgent.past_vals hist = Raise e'.
Proof.
  intros Hin Hne Hx. induction hist as [|y rest IH]; [done|].
  rewrite past_vals_cons. destruct Hin as [->|Hin].
  - rewrite Hne, Hx. by eexists.
  - destruct (IH Hin) as [e' He'].
    destruct (negb (TrendSpec.pm25_empty y)); [|by eexists].
    destruct (TrendSpec.pm25_value y); cbn [mbind result_bind];
      [rewrite He'|]; by eexists.
Qed.

(** X11. One history row whose pm25 is not empty and does not coerce to a
    number spoils the analysis: the result is the record "analysis_error",
    whatever today's reading and the other rows are. *)
Theorem analyze_bad_history (datapoint : pydict) (hist : list pydict)
    (x : pydict) (e : exn) :
  In x hist ->
  TrendSpec.pm25_empty x = false ->
  TrendSpec.pm25_value x = Raise e ->
  AnalysisAgent.analyze datapoint (Some hist)
    = Ok {[ "error" := PStr "analysis_error" ]}.
Proof.
  intros Hin Hne Hx.
  destruct (past_vals_raises hist x e Hin Hne Hx) as [e' He'].
  unfold AnalysisAgent.analyze. rewrite analyze_body_vals.
  destruct (py_float _); cbn [mbind result_bind try_except]; [|done].
  by rewrite He'.
Qed.

Lemma past_vals_skip (h1 h2 : list pydict) (x : pydict) :
  TrendSpec.pm25_empty x = true ->
  AnalysisAgent.past_vals (h1 ++ x :: h2)%list
    = AnalysisAgent.past_vals (h1 ++ h2)%list.
Proof.
  intros Hx. induction h1 as [|y h1 IH]; cbn [app].
  - rewrite past_vals_cons. by rewrite Hx.
  - rewrite !past_vals_cons, IH. done.
Qed.

(** X12. A history row whose pm25 is the empty string has no effect:
    putting it anywhere in a history, an empty one included, leaves the
    analysis of every reading as it was. *)
Theorem analyze_ignores_empty_pm25 (datapoint : pydict)
    (h1 h2 : list pydict) (x : pydict) :
  x !! "pm25" = Some (PStr "") ->
  AnalysisAgent.analyze datapoint (Some (h1 ++ x :: h2)%list)
    = AnalysisAgent.analyze datapoint (Some (h1 ++ h2)%list).
Proof.
  intros Hx. unfold AnalysisAgent.analyze.
  rewrite !analyze_body_vals, past_vals_skip; [done|].
  unfold TrendSpec.pm25_empty. by rewrite Hx.
Qed.
End AnalysisMore.

Lemma analyze_nonpositive_mean_witness :
  AnalysisAgent.analyze (Sample.reading (PFloat 86.0)) (Some Sample.zero_history)
    = Ok {[ "trend" := PStr "stable"; "anomaly" := PBool false;
            "confidence" := PFloat 0.8 ]}.
Proof.
  refine (analyze_nonpositive_mean (Sample.reading (PFloat 86.0))
            Sample.zero_history 86.0 [0.0; 0.0] _ _ _);
    vm_compute; reflexivity.
Defined.

Lemma analyze_bad_history_witness :
  AnalysisAgent.analyze (Sample.reading (PFloat 86.0))
      (Some (Sample.history ++ Sample.malformed_rows)%list)
    = Ok {[ "error" := PStr "analysis_error" ]}.
Proof.
  refine (analyze_bad_history (Sample.reading (PFloat 86.0))
            (Sample.history ++ Sample.malformed_rows)%list
            (Sample.row "Chennai" "n/a" "90.0" "80" "2025-11-03")
            ValueError _ _ _).
  - right; right; left. reflexivity.
  - vm_compute; reflexivity.
  - vm_compute; reflexivity.
Defined.

Lemma analyze_ignores_empty_pm25_witness :
  AnalysisAgent.analyze (Sample.reading (PFloat 86.0))
      (Some (Sample.history ++ Sample.blank_row :: [])%list)
    = AnalysisAgent.analyze (Sample.reading (PFloat 86.0))
        (Some (Sample.history ++ [])%list).
Proof.
  apply analyze_ignores_empty_pm25. vm_compute; reflexivity.
Defined.

(* ===================================================================== *)
(** ** Further properties: explanation and advice                         *)
(* ===================================================================== *)

Section ExplainAdvise.
Context `{PyBuiltins}.

(** The advice on an explanation whose summary is the string [s]. *)
Lemma advise_on_summary (explanation : pydict) (user_prefs : option pydict)
    (s : string) :
  dict_get_or explanation "summary" (PStr "") = PStr s ->
  AdvisoryAgent.advise explanation user_prefs =
    Ok {[ "advice" :=
            ((if str_in "poor" (lower s) || str_in "avoid" (lower s)
              then [ "Avoid outdoor exercise today.";
                     "Use N95 mask if you must go out." ]
              else [ "Good day for outdoor activities." ])
             ++ (if asthma_flag user_prefs
                 then [ "Carry inhaler and avoid crowded roads." ]
                 else []))%list ]}.
Proof.
  intros Hs. unfold AdvisoryAgent.advise. rewrite Hs, mentions_poor_str.
  cbn [mbind result_bind].
  assert (match user_prefs with
          | Some prefs => dict_truthy prefs && truthy (dict_get prefs "asthma")
          | None => false
          end = asthma_flag user_prefs) as ->.
  { destruct user_prefs as [prefs|]; [apply prefs_test_flag|done]. }
  destruct (str_in "poor" (lower s) || str_in "avoid" (lower s));
    destruct (asthma_flag user_prefs); reflexivity.
Qed.

(** X13. Explanation and advice agree on bad air: when the pm25 of the
    reading converts to a number above 100, the advice drawn from the
    explanation of that reading is the two outdoor warnings, followed by
    the inhaler warning exactly when the asthma flag is set, whatever the
    analysis says. *)
Theorem advise_after_poor (datapoint analysis : pydict)
    (user_prefs : option pydict) (f : float) :
  py_float (dict_get datapoint "pm25") = Ok f ->
  (100.0 <? f) = true ->
  AdvisoryAgent.advise (ExplanationAgent.explain datapoint analysis) user_prefs
    = Ok {[ "advice" :=
              ([ "Avoid outdoor exercise today.";
                 "Use N95 mask if you must go out." ]
               ++ (if asthma_flag user_prefs
                   then [ "Carry inhaler and avoid crowded roads." ]
                   else []))%list ]}.
Proof.
  intros Hf Hgt.
  rewrite (advise_on_summary _ _
             (ExplanationAgent.template (dict_get datapoint "pm25")
                (dict_get analysis "trend") +:+ poor_text)).
  - assert (str_in "poor"
              (lower (ExplanationAgent.template (dict_get datapoint "pm25")
                        (dict_get analysis "trend") +:+ poor_text))
            = true) as ->
      by (apply (lower_ascii_part "poor"); [done|]; by apply str_in_app_r).
    done.
  - unfold ExplanationAgent.explain, ExplanationAgent.is_poor.
    rewrite (above_100_truthy _ _ Hf Hgt), Hf. cbn [mbind result_bind].
    rewrite Hgt. by vm_compute.
Qed.

(** X14. The confidence of an explanation of an analysis that [analyze]
    returned is 0.7 when the analysis is the record "analysis_error", and
    the confidence of the analysis, 0.8 or 0.9, otherwise; the trend it
    prints is then "None", "stable", "rising" or "falling". *)
Theorem explain_after_analyze (reading datapoint an : pydict)
    (recent_series : option (list pydict)) :
  AnalysisAgent.analyze reading recent_series = Ok an ->
  (an = {[ "error" := PStr "analysis_error" ]} /\
   dict_get an "trend" = PNone /\
   ExplanationAgent.explain datapoint an !! "confidence" = Some (PFloat 0.7))
  \/
  (exists trend c,
     an !! "trend" = Some (PStr trend) /\
     (trend = "stable" \/ trend = "rising" \/ trend = "falling") /\
     an !! "confidence" = Some (PFloat c) /\ (c = 0.8 \/ c = 0.9) /\
     ExplanationAgent.explain datapoint an !! "confidence" = Some (PFloat c)).
Proof.
  intros Han.
  destruct (analyze_cases reading recent_series)
    as [Ha|[Ha|[Ha|[Ha|Ha]]]]; rewrite Ha in Han; injection Han as <-.
  - left. split; [done|]. split; by vm_compute.
  - right. exists "stable", 0.8. repeat split; try (by vm_compute); tauto.
  - right. exists "rising", 0.9. repeat split; try (by vm_compute); tauto.
  - right. exists "falling", 0.9. repeat split; try (by vm_compute); tauto.
  - right. exists "stable", 0.9. repeat split; try (by vm_compute); tauto.
Qed.
(** X15. [advise] raises [AttributeError] exactly when the explanation has
    a summary that is not a string; otherwise it returns a dictionary whose
    only entry, "advice", is a list of one to three messages. *)
Theorem advise_total_on_strings (explanation : pydict)
    (user_prefs : option pydict) :
  (summary_ok explanation = false ->
     AdvisoryAgent.advise explanation user_prefs = Raise AttributeError) /\
  (summary_ok explanation = true ->
     exists messages,
       AdvisoryAgent.advise explanation user_prefs
         = Ok {[ "advice" := messages ]} /\
       (1 <= length messages <= 3)%nat).
Proof.
  unfold summary_ok. split.
  - intros Hbad. unfold AdvisoryAgent.advise, dict_get_or.
    destruct (explanation !! "summary") as [[ |b|z|f|s]|]; done.
  - intros Hok.
    assert (exists s, dict_get_or explanation "summary" (PStr "") = PStr s)
      as [s Hs].
    { unfold dict_get_or.
      destruct (explanation !! "summary") as [[ |b|z|f|s]|];
        try done; by eexists. }
    eexists. split; [apply (advise_on_summary _ _ s Hs)|].
    destruct (str_in "poor" (lower s) || str_in "avoid" (lower s));
      destruct (asthma_flag user_prefs); simpl; lia.
Qed.
End ExplainAdvise.

Lemma advise_after_poor_witness :
  AdvisoryAgent.advise
      (ExplanationAgent.explain (Sample.reading (PFloat 150.0))
         {[ "error" := PStr "analysis_error" ]})
      (Some (Sample.preferences true))
    = Ok {[ "advice" := [ "Avoid outdoor exercise today.";
                          "Use N95 mask if you must go out.";
                          "Carry inhaler and avoid crowded roads." ] ]}.
Proof.
  rewrite (advise_after_poor (Sample.reading (PFloat 150.0))
             {[ "error" := PStr "analysis_error" ]}
             (Some (Sample.preferences true)) 150.0);
    vm_compute; reflexivity.
Defined.

Lemma advise_total_on_strings_witness :
  AdvisoryAgent.advise {[ "summary" := PNone ]} None = Raise AttributeError /\
  exists messages,
    AdvisoryAgent.advise Sample.moderate_explanation None
      = Ok {[ "advice" := messages ]} /\
    (1 <= length messages <= 3)%nat.
Proof.
  split.
  - apply (proj1 (advise_total_on_strings {[ "summary" := PNone ]} None)).
    vm_compute; reflexivity.
  - apply (proj2 (advise_total_on_strings Sample.moderate_explanation None)).
    vm_compute; reflexivity.
Defined.

Lemma explain_after_analyze_witness :
  exists trend c,
    ({[ "trend" := PStr "rising"; "anomaly" := PBool true;
        "confidence" := PFloat 0.9 ]} : pydict) !! "trend"
      = Some (PStr trend) /\
    (trend = "stable" \/ trend = "rising" \/ trend = "falling") /\
    ({[ "trend" := PStr "rising"; "anomaly" := PBool true;
        "confidence" := PFloat 0.9 ]} : pydict) !! "confidence"
      = Some (PFloat c) /\ (c = 0.8 \/ c = 0.9) /\
    ExplanationAgent.explain (Sample.reading (PFloat 86.0))
        {[ "trend" := PStr "rising"; "anomaly" := PBool true;
           "confidence" := PFloat 0.9 ]} !! "confidence"
      = Some (PFloat c).
Proof.
  destruct (explain_after_analyze (Sample.reading (PFloat 86.0))
              (Sample.reading (PFloat 86.0))
              {[ "trend" := PStr "rising"; "anomaly" := PBool true;
                 "confidence" := PFloat 0.9 ]}
              (Some Sample.history)) as [[Herr _]|Hok].
  - vm_compute; reflexivity.
  - apply (f_equal (fun d : pydict => d !! "trend")) in Herr.
    by vm_compute in Herr.
  - exact Hok.
Defined.

(* ===================================================================== *)
(** ** Further properties: the memory bank                                *)
(* ===================================================================== *)

Section Memory.
Context {Q : Type}.
Implicit Types (self : MemoryBank.t Q) (calls : list (MemoryBank.call (Q := Q))).

(** X16. The query log is append-only: after any sequence of [save_query]
    and [set_pref] calls it is the log before the calls followed by the
    saved queries in the order of the calls; nothing is dropped, reordered
    or touched by [set_pref]. *)
Theorem memory_log_append_only self calls :
  MemoryBank.queries (MemoryBank.run self calls)
    = (MemoryBank.queries self ++ MemorySpec.saved calls)%list.
Proof.
  unfold MemoryBank.run. revert self.
  induction calls as [|[q|k v] rest IH]; intros self;
    cbn [fold_left MemoryBank.step MemorySpec.saved].
  - by rewrite app_nil_r.
  - rewrite IH. cbn [MemoryBank.save_query MemoryBank.queries].
    by rewrite <- app_assoc.
  - by rewrite IH.
Qed.

(** X17. The last write wins: after any sequence of calls, [get_pref k]
    is the value of the last [set_pref] of [k] in the sequence if there is
    one, also when that value is [None], and what [get_pref k] gave before
    the calls otherwise; [save_query] and writes of other keys do not
    change it. *)
Theorem memory_pref_last_write self calls (k : string) (dflt : pyval) :
  MemoryBank.get_pref (MemoryBank.run self calls) k dflt
    = match MemorySpec.last_set k calls with
      | Some v => v
      | None => MemoryBank.get_pref self k dflt
      end.
Proof.
  unfold MemoryBank.run. revert self.
  induction calls as [|[q|k' v] rest IH]; intros self;
    cbn [fold_left MemoryBank.step MemorySpec.last_set].
  - done.
  - by rewrite IH.
  - rewrite IH. destruct (MemorySpec.last_set k rest) as [w|]; [done|].
    unfold MemoryBank.get_pref, MemoryBank.set_pref.
    cbn [MemoryBank.preferences].
    destruct (String.eqb_spec k' k) as [->|Hne].
    + by rewrite lookup_insert_eq.
    + by rewrite lookup_insert_ne.
Qed.
End Memory.

(* ===================================================================== *)
(** ** Further properties: the entry point                                *)
(* ===================================================================== *)

Section EntryPoint.
Context `{PyBuiltins}.

(** The comprehension of [main] is a filter, and raises exactly when some
    row has a location that is there and is not a string. *)
Lemma matching_rows_filter (location : string) (reader : list pydict) :
  (forallb location_ok reader = true ->
     Main.matching_rows location reader
       = Ok (List.filter (MainSpec.reads_as location) reader)) /\
  (forallb location_ok reader = false ->
     Main.matching_rows location reader = Raise AttributeError).
Proof.
  induction reader as [|row rest [IHok IHbad]]; [done|].
  cbn [forallb Main.matching_rows List.filter].
  unfold MainSpec.reads_as at 1, MainSpec.location_text, location_ok at 1 3,
    dict_get_or.
  destruct (row !! "location") as [[ |b|z|f|s]|];
    cbn [default py_lower mbind result_bind andb]; split; try done.
  - intros Hok. rewrite (IHok Hok). simpl.
    by destruct (String.eqb (lower s) (lower location)).
  - intros Hbad. rewrite (IHbad Hbad). simpl.
    by destruct (String.eqb (lower s) (lower location)).
  - intros Hok. rewrite (IHok Hok). simpl.
    by destruct (String.eqb (lower "") (lower location)).
  - intros Hbad. rewrite (IHbad Hbad). simpl.
    by destruct (String.eqb (lower "") (lower location)).
Qed.

Lemma last7_length {A} (recent : list A) :
  (length (Main.last7 recent) <= 7)%nat /\
  ((length recent <= 7)%nat -> Main.last7 recent = recent).
Proof.
  unfold Main.last7. split.
  - rewrite length_drop. lia.
  - intros Hle. by replace (length recent - 7)%nat with 0%nat by lia.
Qed.

(** X18. The history that [main] gives to the trend classifier: it is
    absent exactly when the file cannot be read or some row has a location
    that is not a string; otherwise it holds at most seven rows, which are
    the last rows of the file, in file order, whose location is the queried
    one, case ignored, and all of them when there are at most seven. *)
Theorem recent_rows_spec (file : csv_file) (location : string) :
  match Main.recent_rows file location with
  | None =>
      file = Missing \/ (exists e, file = Unreadable e) \/
      exists reader, file = Rows reader /\ forallb location_ok reader = false
  | Some recent =>
      exists reader older,
        file = Rows reader /\ forallb location_ok reader = true /\
        List.filter (MainSpec.reads_as location) reader
          = (older ++ recent)%list /\
        (length recent <= 7)%nat /\
        (older <> [] -> length recent = 7%nat)
  end.
Proof.
  unfold Main.recent_rows.
  destruct file as [|e|reader]; [by left|right; left; by exists e|].
  destruct (matching_rows_filter location reader) as [Hok Hbad].
  destruct (forallb location_ok reader) eqn:Hall.
  - rewrite (Hok eq_refl).
    set (ms := List.filter (MainSpec.reads_as location) reader).
    exists reader, (take (length ms - 7) ms).
    split; [done|]. split; [done|]. unfold Main.last7.
    split; [by rewrite take_drop|]. rewrite length_drop. split; [lia|].
    intros Hne. destruct (decide (length ms <= 7)%nat) as [Hle|Hgt]; [|lia].
    exfalso. apply Hne.
    by replace (length ms - 7)%nat with 0%nat by lia.
  - rewrite (Hbad eq_refl). right; right. by exists reader.
Qed.
End EntryPoint.

